(** * MSSP to Cyber Controller migration tool: model and verified properties

    A shallow embedding of [mssp_migrate_to_cc.py].  Values parsed from JSON
    are modelled by [pyval]; a Python exception is a [Raise] result; the
    network, the file system, the clock and the destination client (the
    external [Vision] class) are the fields of an abstract world that is
    threaded through every effectful call together with a log of the calls. *)

From Stdlib Require Import ZArith String Ascii List Bool Lia.
From Stdlib Require Import SpecFloat DecimalString.
From stdpp Require Import base tactics list strings.

Local Open Scope string_scope.
Local Open Scope list_scope.
Set Warnings "-register-all".

(** ** Python values *)

(** What [json.load] / [response.json()] can produce.  A [dict] is kept as an
    association list in insertion order (Python dicts iterate in that order);
    lookup takes the first binding of a key.  One [ascii] stands for one
    character of a Python [str]. *)
Inductive pyval : Type :=
| PNone
| PBool (b : bool)
| PInt (n : Z)
| PFloat (x : spec_float)
| PStr (s : string)
| PList (l : list pyval)
| PDict (d : list (string * pyval)).

Inductive exn : Type :=
| TypeError
| KeyError
| IndexError
| AttributeError
| JSONDecodeError
| OSError
| RequestException (msg : string)
| SystemExit (code : Z).

(** ** Results: a value or a raised exception *)

Inductive result (A : Type) : Type :=
| Ok (a : A)
| Raise (e : exn).
Arguments Ok {A} a.
Arguments Raise {A} e.

Definition bindR {A B : Type} (m : result A) (k : A -> result B) : result B :=
  match m with
  | Ok a => k a
  | Raise e => Raise e
  end.

Notation "x <- m ;; k" := (bindR m (fun x => k))
  (at level 100, m at next level, right associativity).

(** ** Python primitives used by the script *)

Module Py.

Fixpoint dict_lookup (d : list (string * pyval)) (k : string) : option pyval :=
  match d with
  | [] => None
  | (k', v) :: rest => if String.eqb k' k then Some v else dict_lookup rest k
  end.

(** [v.get(k, default)]: only a dict has the method. *)
Definition get (v : pyval) (k : string) (default : pyval) : result pyval :=
  match v with
  | PDict d =>
      match dict_lookup d k with
      | Some x => Ok x
      | None => Ok default
      end
  | _ => Raise AttributeError
  end.

(** [v[k]] for a string key [k]. *)
Definition getitem (v : pyval) (k : string) : result pyval :=
  match v with
  | PDict d =>
      match dict_lookup d k with
      | Some x => Ok x
      | None => Raise KeyError
      end
  | _ => Raise TypeError
  end.

(** Truth value of a value in [if v] / [x if v else y]. *)
Definition truthy (v : pyval) : bool :=
  match v with
  | PNone => false
  | PBool b => b
  | PInt n => negb (n =? 0)%Z
  | PFloat (S754_zero _) => false
  | PFloat _ => true
  | PStr s => negb (String.eqb s "")
  | PList [] => false
  | PList (_ :: _) => true
  | PDict [] => false
  | PDict (_ :: _) => true
  end.

Definition chars (s : string) : list pyval :=
  map (fun c => PStr (String c EmptyString)) (list_ascii_of_string s).

(** The items a [for] loop, a comprehension or [str.join] draws from [v]. *)
Definition iter (v : pyval) : result (list pyval) :=
  match v with
  | PList l => Ok l
  | PStr s => Ok (chars s)
  | PDict d => Ok (map (fun kv => PStr (fst kv)) d)
  | _ => Raise TypeError
  end.

(** [v == s] for a string [s]. *)
Definition eq_str (v : pyval) (s : string) : bool :=
  match v with
  | PStr s' => String.eqb s' s
  | _ => false
  end.

Fixpoint is_substring (needle hay : string) : bool :=
  String.prefix needle hay ||
  match hay with
  | EmptyString => false
  | String _ hay' => is_substring needle hay'
  end.

(** [s in v] for a string [s]. *)
Definition contains (s : string) (v : pyval) : result bool :=
  match v with
  | PList l => Ok (existsb (fun x => eq_str x s) l)
  | PStr hay => Ok (is_substring s hay)
  | PDict d => Ok (existsb (fun kv => String.eqb (fst kv) s) d)
  | _ => Raise TypeError
  end.

Fixpoint strings_of (l : list pyval) : result (list string) :=
  match l with
  | [] => Ok []
  | PStr s :: rest => ss <- strings_of rest ;; Ok (s :: ss)
  | _ :: _ => Raise TypeError
  end.

(** [sep.join(v)] *)
Definition join (sep : string) (v : pyval) : result string :=
  items <- iter v ;;
  ss <- strings_of items ;;
  Ok (String.concat sep ss).

(** [v[0]] *)
Definition first (v : pyval) : result pyval :=
  match v with
  | PList (x :: _) => Ok x
  | PList [] => Raise IndexError
  | PStr (String c _) => Ok (PStr (String c EmptyString))
  | PStr EmptyString => Raise IndexError
  | PDict _ => Raise KeyError
  | _ => Raise TypeError
  end.

(** [a + b] where the script only ever adds strings. *)
Definition add (a b : pyval) : result pyval :=
  match a, b with
  | PStr x, PStr y => Ok (PStr (x +:+ y))
  | _, _ => Raise TypeError
  end.

(** [s[:n]] on a string. *)
Definition slice_to (n : nat) (s : string) : string := String.substring 0 n s.

End Py.

(** Loops that stop at the first exception. *)

Fixpoint filterR {A : Type} (p : A -> result bool) (l : list A) : result (list A) :=
  match l with
  | [] => Ok []
  | x :: rest =>
      b <- p x ;;
      ys <- filterR p rest ;;
      Ok (if b then x :: ys else ys)
  end.

Fixpoint for_each {A B : Type} (body : B -> A -> result B) (l : list A) (acc : B)
  : result B :=
  match l with
  | [] => Ok acc
  | x :: rest => acc' <- body acc x ;; for_each body rest acc'
  end.

(** ** Record filters and mappers *)

Definition filter_accounts_by_type (accounts : pyval) (account_type : string)
  : result pyval :=
  items <- Py.iter accounts ;;
  filtered_accounts <-
    filterR (fun account =>
               t <- Py.get account "_type" PNone ;; Ok (Py.eq_str t account_type))
            items ;;
  Ok (PList filtered_accounts).

Definition filter_users_by_role (users : pyval) (role : string) : result pyval :=
  items <- Py.iter users ;;
  filtered_users <-
    filterR (fun user =>
               r <- Py.get user "role" PNone ;; Ok (Py.eq_str r role))
            items ;;
  Ok (PList filtered_users).

Definition new_role_mapping : list (string * pyval) :=
  [ ("userAdmin", PStr "MSSP_PORTAL_ADMIN");
    ("basicUser", PStr "MSSP_PORTAL_USER");
    ("dashboardUser", PStr "MSSP_PORTAL_VIEWER");
    ("userViewer", PStr "MSSP_PORTAL_VIEWER") ].

Definition role_priority : list string :=
  [ "userAdmin"; "basicUser"; "dashboardUser"; "userViewer" ].

(** The [for role in role_priority] loop, for any scan order. *)
Fixpoint scan_roles (priority : list string) (current_roles : pyval) : result pyval :=
  match priority with
  | [] => Ok PNone
  | role :: rest =>
      found <- Py.contains role current_roles ;;
      if found then Py.getitem (PDict new_role_mapping) role
      else scan_roles rest current_roles
  end.

Definition select_new_role (current_roles : pyval) : result pyval :=
  scan_roles role_priority current_roles.

(** Body of the loop of [build_users_info]. *)
Definition user_info_of (user : pyval) : result pyval :=
  username <- Py.get user "username" (PStr "N/A") ;;
  account <- Py.get user "account" (PDict []) ;;
  account_oid <- Py.get account "_oid" (PStr "N/A") ;;
  roles <- Py.get user "roles" (PDict []) ;;
  current_account_roles <- Py.get roles "currentAccount" (PList []) ;;
  roles_string <-
    (if Py.truthy current_account_roles
     then Py.join ", " current_account_roles
     else Ok "None") ;;
  new_role <- select_new_role current_account_roles ;;
  auth_meta <- Py.get user "auth_meta" (PDict []) ;;
  allowed_ips <- Py.get auth_meta "allowed_ip_list" (PList []) ;;
  first_ip <-
    (if Py.truthy allowed_ips then Py.first allowed_ips else Ok (PStr "")) ;;
  notes <- Py.get user "notes" (PStr "") ;;
  name <- Py.get user "name" PNone ;;
  role <- Py.get user "role" (PStr "N/A") ;;
  email <- Py.get user "email" PNone ;;
  auth_type <- Py.get user "auth_type" PNone ;;
  Ok (PDict
        [ ("Name", name);
          ("Username", username);
          ("Role", role);
          ("Email", email);
          ("Auth Type", auth_type);
          ("Account OID", account_oid);
          ("Role (Current)", PStr roles_string);
          ("New Role", new_role);
          ("Allowed IP Address", first_ip);
          ("Notes", notes) ]).

Definition build_users_info (filtered_users : pyval) : result pyval :=
  items <- Py.iter filtered_users ;;
  users_info <-
    for_each (fun users_info user =>
                user_info <- user_info_of user ;; Ok (users_info ++ [user_info]))
             items [] ;;
  Ok (PList users_info).

Definition build_assets_info (assets : pyval) : result pyval :=
  items <- Py.iter assets ;;
  assets_info_list <-
    for_each (fun assets_info_list asset =>
                policies <- Py.get asset "policies" (PList []) ;;
                line <- Py.join ", " policies ;;
                Ok (assets_info_list ++ [PStr line]))
             items [] ;;
  Ok (PList assets_info_list).

(** The group name computed on line 32 of [import_mssp_config]. *)
Definition cc_group_name_of (group : pyval) : result string :=
  name <- Py.getitem group "Account Name" ;;
  left <- Py.add name (PStr "_") ;;
  oid <- Py.getitem group "Account OID" ;;
  full <- Py.add left oid ;;
  match full with
  | PStr s => Ok (Py.slice_to 31 s)
  | _ => Raise TypeError
  end.

(** ** The outside world *)

(** What [requests.get] / [requests.post] hand back: the status, the cookies
    and what [response.json()] evaluates to. *)
Record response : Type := {
  status_code : Z;
  cookies : list (string * string);
  json : result pyval
}.

(** The destination client object, [Vision(address, username, password)]. *)
Record vision : Type := {
  vision_address : string;
  vision_username : string;
  vision_password : string
}.

(** Every call that leaves the process, in the order it is made. *)
Inductive event : Type :=
| HttpPost (url data : string)
| HttpGet (url cookie : string)
| FileRead (filename : string)
| FileWrite (filename : string) (data : pyval)
| VisionNew (v : vision)
| VisionLogin (v : vision)
| CreateGroup (v : vision) (name : string) (poList : pyval) (dry_run : bool)
| AddUser (v : vision) (user : pyval) (group : string) (password : string)
    (dry_run : bool)
| Logged (level msg : string)
| Stdout (msg : string).

(** The collaborators the script is run against.  [W] is their joint state.
    Each operation may raise; [vision_login] and [vision_create_cc_group]
    return the truth value of what the method returns. *)
Record Env (W : Type) : Type := {
  requests_post : string -> string -> W -> result response * W;
  requests_get : string -> string -> W -> result response * W;
  read_json : string -> W -> result pyval * W;
  write_json : string -> pyval -> W -> result unit * W;
  strftime_now : W -> string;
  script_dir : string;
  vision_new : vision -> W -> result unit * W;
  vision_login : vision -> W -> result bool * W;
  vision_create_cc_group :
    vision -> string -> pyval -> bool -> W -> result bool * W;
  vision_add_user_to_group :
    vision -> pyval -> string -> string -> bool -> W -> result unit * W;
  str_other : pyval -> string
}.
Arguments requests_post {W} _.
Arguments requests_get {W} _.
Arguments read_json {W} _.
Arguments write_json {W} _.
Arguments strftime_now {W} _.
Arguments script_dir {W} _.
Arguments vision_new {W} _.
Arguments vision_login {W} _.
Arguments vision_create_cc_group {W} _.
Arguments vision_add_user_to_group {W} _.
Arguments str_other {W} _.

(** ** Effectful code: state passing with a call log *)

Record state (W : Type) : Type := {
  world : W;
  calls : list event
}.
Arguments world {W} _.
Arguments calls {W} _.

Definition IO (W A : Type) : Type := state W -> result A * state W.

Definition ret {W A : Type} (a : A) : IO W A := fun s => (Ok a, s).

Definition raise {W A : Type} (e : exn) : IO W A := fun s => (Raise e, s).

Definition bindIO {W A B : Type} (m : IO W A) (k : A -> IO W B) : IO W B :=
  fun s =>
    match m s with
    | (Ok a, s') => k a s'
    | (Raise e, s') => (Raise e, s')
    end.

Notation "x <~ m ;; k" := (bindIO m (fun x => k))
  (at level 100, m at next level, right associativity).

Definition lift {W A : Type} (r : result A) : IO W A := fun s => (r, s).

(** Record the call, then let the collaborator answer. *)
Definition call {W A : Type} (e : event) (op : W -> result A * W) : IO W A :=
  fun s =>
    let (r, w') := op (world s) in
    (r, {| world := w'; calls := calls s ++ [e] |}).

Definition emit {W : Type} (e : event) : IO W unit :=
  fun s => (Ok tt, {| world := world s; calls := calls s ++ [e] |}).

Fixpoint for_io {W A : Type} (body : A -> IO W unit) (l : list A) : IO W unit :=
  match l with
  | [] => ret tt
  | x :: rest => _ <~ body x ;; for_io body rest
  end.

Fixpoint fold_io {W A B : Type} (body : B -> A -> IO W B) (l : list A) (acc : B)
  : IO W B :=
  match l with
  | [] => ret acc
  | x :: rest => acc' <~ body acc x ;; fold_io body rest acc'
  end.

Definition newline : string := String (ascii_of_nat 10) EmptyString.

(** [os.path.join(a, b)] for a directory [a] that does not end in a slash. *)
Definition path_join (a b : string) : string :=
  if String.prefix "/" b then b else a +:+ "/" +:+ b.

(** Command-line arguments after [parse_args]. *)
Record args : Type := {
  mssp_address : option string;
  mssp_username : option string;
  mssp_password : option string;
  cc_address : option string;
  cc_username : option string;
  cc_password : option string;
  export_file : option string;
  import_from_file : bool;
  config_file : option string;
  dry_run : bool;
  initial_user_password : option string
}.

(** Truth value of an optional string argument. *)
Definition given (o : option string) : bool :=
  match o with
  | Some s => negb (String.eqb s "")
  | None => false
  end.

(** How an f-string or a call receives an optional string argument. *)
Definition arg_str (o : option string) : string :=
  match o with
  | Some s => s
  | None => "None"
  end.

(** ** The script's effectful functions *)

Section Script.

Context {W : Type} (env : Env W).

Definition log_info (msg : string) : IO W unit := emit (Logged "INFO" msg).
Definition log_error (msg : string) : IO W unit := emit (Logged "ERROR" msg).

(** [f"{v}"] *)
Definition fstr (v : pyval) : string :=
  match v with
  | PStr s => s
  | _ => str_other env v
  end.

Definition decimal (n : Z) : string := NilZero.string_of_int (Z.to_int n).

Definition load_config (filename : string) : IO W pyval :=
  call (FileRead filename) (read_json env filename).

Definition add_users (v : vision) (cc_group_name new_user_password : string)
    (dry : bool) (users : list pyval) : IO W unit :=
  for_io (fun user =>
            call (AddUser v user cc_group_name new_user_password dry)
                 (vision_add_user_to_group env v user cc_group_name
                    new_user_password dry))
         users.

(** Body of the [for group in config] loop. *)
Definition import_group (v : vision) (new_user_password : string) (dry : bool)
    (group : pyval) : IO W unit :=
  cc_group_name <~ lift (cc_group_name_of group) ;;
  poList <~ lift (Py.getitem group "Assets") ;;
  created <~ call (CreateGroup v cc_group_name poList dry)
                  (vision_create_cc_group env v cc_group_name poList dry) ;;
  if created : bool then
    users <~ lift (Py.getitem group "Users") ;;
    items <~ lift (Py.iter users) ;;
    add_users v cc_group_name new_user_password dry items
  else
    _ <~ log_error ("couldn't create group " +:+ cc_group_name +:+
                    ", skipping it completly.") ;;
    emit (Stdout ("couldn't create group " +:+ cc_group_name +:+
                  ", skipping it completly. " +:+ newline +:+
                  " please check the logs and try again.")).

Definition import_groups (v : vision) (new_user_password : string) (dry : bool)
    (groups : list pyval) : IO W unit :=
  for_io (import_group v new_user_password dry) groups.

Definition import_mssp_config (v : vision) (config : pyval)
    (new_user_password : string) (dry : bool) : IO W unit :=
  logged_in <~ call (VisionLogin v) (vision_login env v) ;;
  if logged_in : bool then
    groups <~ lift (Py.iter config) ;;
    import_groups v new_user_password dry groups
  else ret tt.

Definition login (url username password : string) : IO W (option string) :=
  let payload := "u=" +:+ username +:+ "&p=" +:+ password in
  fun s =>
    match call (HttpPost url payload) (requests_post env url payload) s with
    | (Ok response, s1) =>
        if (status_code response =? 200)%Z then
          (_ <~ log_info "MSSP: Login successful" ;;
           let sessionid :=
             snd <$> List.find (fun kv => String.eqb (fst kv) "sessionid")
                               (cookies response) in
           if given sessionid then ret sessionid
           else _ <~ log_info "Session ID not found in cookies" ;; ret None) s1
        else
          (_ <~ log_info ("Login failed with status code " +:+
                          decimal (status_code response)) ;;
           ret None) s1
    | (Raise (RequestException msg), s1) =>
        (_ <~ log_info ("An error occurred: " +:+ msg) ;; ret None) s1
    | (Raise e, s1) => (Raise e, s1)
    end.

(** The common tail of the three listing calls. *)
Definition reply_of (response : response) : result pyval :=
  if (status_code response =? 200)%Z then
    body <- json response ;;
    Py.get body "reply" (PList [])
  else Ok (PList []).

Definition fetch_all_accounts (session_id mssp_address : string) : IO W pyval :=
  let accounts_url := "https://" +:+ mssp_address +:+ "/api/accounts/" in
  let url := accounts_url in
  let cookie := "sessionid=" +:+ session_id in
  response <~ call (HttpGet url cookie) (requests_get env url cookie) ;;
  lift (reply_of response).

Definition fetch_assets_for_account (session_id : string) (account_id : pyval)
    (mssp_address : string) : IO W pyval :=
  let assets_url := "https://" +:+ mssp_address +:+ "/api/assets/" in
  let url := assets_url +:+ "?type=account&id=" +:+ fstr account_id in
  let cookie := "sessionid=" +:+ session_id in
  response <~ call (HttpGet url cookie) (requests_get env url cookie) ;;
  lift (reply_of response).

Definition fetch_users_for_account (session_id : string) (account_id : pyval)
    (mssp_address : string) : IO W pyval :=
  let users_url := "https://" +:+ mssp_address +:+ "/api/users/" in
  let url := users_url +:+ "?type=account&id=" +:+ fstr account_id in
  let cookie := "sessionid=" +:+ session_id in
  response <~ call (HttpGet url cookie) (requests_get env url cookie) ;;
  lift (reply_of response).

(** The [services_info] loop: its result is not exported, but it runs. *)
Definition build_services_info (account : pyval) : result (list pyval) :=
  services <- Py.get account "services" (PList []) ;;
  items <- Py.iter services ;;
  for_each (fun services_info service =>
              ty <- Py.get service "service_type" (PStr "N/A") ;;
              st <- Py.get service "status" (PStr "N/A") ;;
              Ok (services_info ++ [PDict [("Type", ty); ("Status", st)]]))
           items [].

(** What one pass of the account loop appends, once the two listings of the
    account are in. *)
Definition account_details_of (account account_id account_name account_type
    assets users_reply : pyval) : result pyval :=
  users <- filter_users_by_role users_reply "user" ;;
  clean_assets <- build_assets_info assets ;;
  clean_users <- build_users_info users ;;
  _ <- build_services_info account ;;
  Ok (PDict
        [ ("Account Name", account_name);
          ("Type", account_type);
          ("Account OID", account_id);
          ("Assets", clean_assets);
          ("Users", clean_users) ]).

(** Body of the [for account in accounts] loop. *)
Definition export_account (session_id mssp_address : string)
    (all_accounts_info : list pyval) (account : pyval) : IO W (list pyval) :=
  id <~ lift (Py.get account "_id" (PDict [])) ;;
  account_id <~ lift (Py.get id "_oid" (PStr "N/A")) ;;
  account_name <~ lift (Py.get account "name" (PStr "N/A")) ;;
  account_type <~ lift (Py.get account "_type" (PStr "N/A")) ;;
  assets <~ fetch_assets_for_account session_id account_id mssp_address ;;
  users_reply <~ fetch_users_for_account session_id account_id mssp_address ;;
  account_details <~
    lift (account_details_of account account_id account_name account_type
            assets users_reply) ;;
  ret (all_accounts_info ++ [account_details]).

Definition build_structured_export (session_id mssp_address : string)
  : IO W pyval :=
  listing <~ fetch_all_accounts session_id mssp_address ;;
  accounts <~ lift (filter_accounts_by_type listing "CustomerAccount") ;;
  items <~ lift (Py.iter accounts) ;;
  all_accounts_info <~
    fold_io (export_account session_id mssp_address) items [] ;;
  ret (PList all_accounts_info).

Definition save_data_to_json_file (data : pyval) (base_filename : string)
  : IO W unit :=
  let config_dir := path_join (script_dir env) "config" in
  fun s =>
    let current_date := strftime_now env (world s) in
    let filename :=
      path_join config_dir (base_filename +:+ "_" +:+ current_date +:+ ".json") in
    call (FileWrite filename data) (write_json env filename data) s.

Definition default_password : string := "P@ssw0rd1!".

(** The [__main__] block after argument parsing. *)
Definition main (a : args) : IO W unit :=
  config <~
    (if negb (import_from_file a) then
       if negb (given (mssp_address a) && given (mssp_username a)
                && given (mssp_password a))
       then raise (SystemExit 2)
       else
         session_id <~ login ("https://" +:+ arg_str (mssp_address a) +:+
                              "/api/auth/")
                             (arg_str (mssp_username a))
                             (arg_str (mssp_password a)) ;;
         if given session_id then
           structured_export <~
             build_structured_export (arg_str session_id)
                                     (arg_str (mssp_address a)) ;;
           _ <~ (if given (export_file a) then
                   _ <~ save_data_to_json_file structured_export
                          (arg_str (export_file a)) ;;
                   log_info ("Exported MSSP configuration saved to " +:+
                             arg_str (export_file a))
                 else ret tt) ;;
           ret structured_export
         else
           _ <~ log_info "Failed to log in to MSSP." ;;
           raise (SystemExit 1)
     else
       if negb (given (config_file a)) then
         _ <~ log_info "Config file path is required when importing from file." ;;
         raise (SystemExit 1)
       else load_config (arg_str (config_file a))) ;;
  if given (cc_address a) && given (cc_username a)
     && given (cc_password a)
  then
    let v := {| vision_address := arg_str (cc_address a);
                vision_username := arg_str (cc_username a);
                vision_password := arg_str (cc_password a) |} in
    _ <~ call (VisionNew v) (vision_new env v) ;;
    if negb (given (export_file a)) then
      if negb (given (initial_user_password a)) then
        import_mssp_config v config default_password (dry_run a)
      else
        import_mssp_config v config (arg_str (initial_user_password a))
                           (dry_run a)
    else ret tt
  else if dry_run a then
    log_info ("Warning: dry run was requested but some or all of the " +:+
              "following args are missing: CC IP address, CC username, " +:+
              "CC password.")
  else ret tt.

End Script.

(** * Specification vocabulary

    The notions the properties below are stated with: typed readings of
    the JSON records, and the parts of the call log they speak about. *)

(** ** Role selection *)

(** The hierarchy of the docstring of [select_new_role]: a smaller rank is a
    higher priority, and the two viewer roles share the lowest rank. *)
Definition role_rank (r : string) : option nat :=
  if String.eqb r "userAdmin" then Some 0
  else if String.eqb r "basicUser" then Some 1
  else if String.eqb r "dashboardUser" then Some 2
  else if String.eqb r "userViewer" then Some 2
  else None.

Definition destination_of (r : string) : option pyval :=
  Py.dict_lookup new_role_mapping r.

Definition has_role (roles : list pyval) (r : string) : Prop := In (PStr r) roles.

Definition has_roleb (roles : list pyval) (r : string) : bool :=
  existsb (fun x => Py.eq_str x r) roles.

(** [r] is held and no held role outranks it. *)
Definition top_role (roles : list pyval) (r : string) : Prop :=
  has_role roles r /\
  exists k, role_rank r = Some k /\
    forall r' k', has_role roles r' -> role_rank r' = Some k' -> k <= k'.

Definition admin_id : pyval := PStr "MSSP_PORTAL_ADMIN".
Definition user_id : pyval := PStr "MSSP_PORTAL_USER".
Definition viewer_id : pyval := PStr "MSSP_PORTAL_VIEWER".

(** The scan order with the two viewer roles exchanged. *)
Definition viewer_swapped_priority : list string :=
  [ "userAdmin"; "basicUser"; "userViewer"; "dashboardUser" ].

(** ** The call log *)

(** Running [m] only appends to the log. *)
Definition grows {W A : Type} (m : IO W A) : Prop :=
  forall s, exists rest, calls (snd (m s)) = calls s ++ rest.

(** ** User records *)

(** The typed reading of a source user record: the nested objects are
    objects, the current-account roles are a list of strings and the allowed
    IPs are a list, whenever they are present. *)
Definition is_str (v : pyval) : bool :=
  match v with PStr _ => true | _ => false end.

Definition is_dict (v : pyval) : bool :=
  match v with PDict _ => true | _ => false end.

Definition roles_ok (v : pyval) : bool :=
  match v with
  | PDict rd =>
      match Py.dict_lookup rd "currentAccount" with
      | Some (PList l) => forallb is_str l
      | Some _ => false
      | None => true
      end
  | _ => false
  end.

Definition auth_meta_ok (v : pyval) : bool :=
  match v with
  | PDict md =>
      match Py.dict_lookup md "allowed_ip_list" with
      | Some (PList _) => true
      | Some _ => false
      | None => true
      end
  | _ => false
  end.

Definition well_formed_user (u : list (string * pyval)) : bool :=
  match Py.dict_lookup u "account" with Some a => is_dict a | None => true end &&
  match Py.dict_lookup u "roles" with Some r => roles_ok r | None => true end &&
  match Py.dict_lookup u "auth_meta" with Some m => auth_meta_ok m | None => true end.

Definition account_oid_field (u : list (string * pyval)) : option pyval :=
  match Py.dict_lookup u "account" with
  | Some (PDict a) => Py.dict_lookup a "_oid"
  | _ => None
  end.

Definition str_of (v : pyval) : string :=
  match v with PStr s => s | _ => "" end.

(** The current-account role set; empty when the record has none. *)
Definition current_roles (u : list (string * pyval)) : list pyval :=
  match Py.dict_lookup u "roles" with
  | Some (PDict rd) =>
      match Py.dict_lookup rd "currentAccount" with
      | Some (PList l) => l
      | _ => []
      end
  | _ => []
  end.

(** The allowed-IP list; empty when the record has none. *)
Definition allowed_ips (u : list (string * pyval)) : list pyval :=
  match Py.dict_lookup u "auth_meta" with
  | Some (PDict md) =>
      match Py.dict_lookup md "allowed_ip_list" with
      | Some (PList l) => l
      | _ => []
      end
  | _ => []
  end.

Definition roles_display (roles : list pyval) : string :=
  match roles with
  | [] => "None"
  | _ :: _ => String.concat ", " (map str_of roles)
  end.

Definition first_ip_of (ips : list pyval) : pyval :=
  match ips with
  | [] => PStr ""
  | ip :: _ => ip
  end.

(** ** Filters *)

(** The record's field [field] is the string [wanted]. *)
Definition field_is (field wanted : string) (record : pyval) : bool :=
  match record with
  | PDict d =>
      match Py.dict_lookup d field with
      | Some (PStr s) => String.eqb s wanted
      | _ => false
      end
  | _ => false
  end.

(** ** Listing calls *)

(** What a listing call [m] does in state [s] when the portal answers its
    request for [url]: any status but 200 gives the empty list, status 200
    with a JSON object gives the object's reply field, the empty list when
    the field is absent; either way the request is logged once. *)
Definition degrades_to_empty {W : Type} (env : Env W) (url cookie : string)
    (m : IO W pyval) (s : state W) : Prop :=
  forall (r : response) (w' : W),
    requests_get env url cookie (world s) = (Ok r, w') ->
    let s' := {| world := w'; calls := calls s ++ [HttpGet url cookie] |} in
    (status_code r <> 200%Z -> m s = (Ok (PList []), s')) /\
    (status_code r = 200%Z ->
     forall body, json r = Ok (PDict body) ->
       m s = (Ok (default (PList []) (Py.dict_lookup body "reply")), s')).

(** ** Import *)

(** Calls that create something on the destination. *)
Definition destination_write (e : event) : bool :=
  match e with
  | CreateGroup _ _ _ _ => true
  | AddUser _ _ _ _ _ => true
  | _ => false
  end.

(** What the loop leaves in the log for a group that could not be created. *)
Definition skipped_group_calls (v : vision) (name : string) (assets : pyval)
    (dry : bool) : list event :=
  [ CreateGroup v name assets dry;
    Logged "ERROR" ("couldn't create group " +:+ name +:+
                    ", skipping it completly.");
    Stdout ("couldn't create group " +:+ name +:+
            ", skipping it completly. " +:+ newline +:+
            " please check the logs and try again.") ].

(** ** Export *)

(** The identifier the export reads from an account record. *)
Definition account_id_of (d : list (string * pyval)) : pyval :=
  match Py.dict_lookup d "_id" with
  | Some (PDict i) => default (PStr "N/A") (Py.dict_lookup i "_oid")
  | _ => PStr "N/A"
  end.

(** [entry] is the export of [account]: its name, type and identifier, the
    rendering of the assets listed for that identifier, and one user info
    for each listed user of that identifier whose role is exactly user. *)
Definition exported_as {W : Type} (env : Env W) (session_id mssp_address : string)
    (account entry : pyval) : Prop :=
  exists (d : list (string * pyval)) (assets_reply users_reply : pyval)
         (kept clean_assets clean_users : list pyval) (s1 s2 s3 : state W),
    account = PDict d /\
    fetch_assets_for_account env session_id (account_id_of d) mssp_address s1
      = (Ok assets_reply, s2) /\
    fetch_users_for_account env session_id (account_id_of d) mssp_address s2
      = (Ok users_reply, s3) /\
    filter_users_by_role users_reply "user" = Ok (PList kept) /\
    build_assets_info assets_reply = Ok (PList clean_assets) /\
    build_users_info (PList kept) = Ok (PList clean_users) /\
    length clean_users = length kept /\
    entry = PDict [ ("Account Name", default (PStr "N/A") (Py.dict_lookup d "name"));
                    ("Type", default (PStr "N/A") (Py.dict_lookup d "_type"));
                    ("Account OID", account_id_of d);
                    ("Assets", PList clean_assets);
                    ("Users", PList clean_users) ].

(** *** Runs against a well-behaved portal return

    The portal is well behaved when it answers every request, and every
    answer with status 200 carries a JSON object whose reply, if any, is a
    list of well-typed records. *)

Definition opt_ok (p : pyval -> bool) (o : option pyval) : bool :=
  match o with
  | Some v => p v
  | None => true
  end.

Definition list_of (p : pyval -> bool) (v : pyval) : bool :=
  match v with
  | PList l => forallb p l
  | _ => false
  end.

Definition well_typed_record (v : pyval) : bool :=
  match v with
  | PDict d =>
      opt_ok is_dict (Py.dict_lookup d "_id") &&
      opt_ok (list_of is_dict) (Py.dict_lookup d "services") &&
      opt_ok (list_of is_str) (Py.dict_lookup d "policies") &&
      well_formed_user d
  | _ => false
  end.

Definition well_typed_response (r : response) : bool :=
  if (status_code r =? 200)%Z then
    match json r with
    | Ok (PDict body) =>
        opt_ok (list_of well_typed_record) (Py.dict_lookup body "reply")
    | _ => false
    end
  else true.

Definition well_behaved {W : Type} (env : Env W) : Prop :=
  forall url cookie w, exists r w',
    requests_get env url cookie w = (Ok r, w') /\ well_typed_response r = true.

(** ** The main flow in live mode *)

(** Calls of the import phase. *)
Definition import_call (e : event) : bool :=
  match e with
  | VisionLogin _ => true
  | CreateGroup _ _ _ _ => true
  | AddUser _ _ _ _ _ => true
  | _ => false
  end.

(** The client object [__main__] builds from the arguments. *)
Definition controller_of (a : args) : vision :=
  {| vision_address := arg_str (cc_address a);
     vision_username := arg_str (cc_username a);
     vision_password := arg_str (cc_password a) |}.

(** The password [__main__] hands to the import. *)
Definition password_of (a : args) : string :=
  if given (initial_user_password a) then arg_str (initial_user_password a)
  else default_password.

(** Live mode, all source and destination credentials given. *)
Definition live_with_credentials (a : args) : bool :=
  negb (import_from_file a) &&
  (given (mssp_address a) && given (mssp_username a) && given (mssp_password a)) &&
  (given (cc_address a) && given (cc_username a)
   && given (cc_password a)).

Definition source_login {W : Type} (env : Env W) (a : args)
  : IO W (option string) :=
  login env ("https://" +:+ arg_str (mssp_address a) +:+ "/api/auth/")
        (arg_str (mssp_username a)) (arg_str (mssp_password a)).

(** What is left of [__main__] once the export is in, without and with
    [--export-file]. *)
Definition import_exported {W : Type} (env : Env W) (a : args) (doc : pyval)
  : IO W unit :=
  _ <~ call (VisionNew (controller_of a)) (vision_new env (controller_of a)) ;;
  import_mssp_config env (controller_of a) doc (password_of a) (dry_run a).

Definition snapshot_only {W : Type} (env : Env W) (a : args) (doc : pyval)
  : IO W unit :=
  _ <~ save_data_to_json_file env doc (arg_str (export_file a)) ;;
  _ <~ log_info ("Exported MSSP configuration saved to " +:+
                 arg_str (export_file a)) ;;
  _ <~ call (VisionNew (controller_of a)) (vision_new env (controller_of a)) ;;
  ret tt.

(** ** Which calls each phase can make *)

(** Running [m] appends to the log only calls that satisfy [P], whether it
    returns or raises. *)
Definition only_emits {W A : Type} (P : event -> bool) (m : IO W A) : Prop :=
  forall s, exists rest,
    calls (snd (m s)) = calls s ++ rest /\ forallb P rest = true.

Definition is_get (e : event) : bool :=
  match e with HttpGet _ _ => true | _ => false end.

Definition is_post_or_note (e : event) : bool :=
  match e with HttpPost _ _ => true | Logged _ _ => true | _ => false end.

Definition is_note (e : event) : bool :=
  match e with Logged _ _ => true | Stdout _ => true | _ => false end.

(** Requests to the source portal. *)
Definition source_call (e : event) : bool :=
  match e with HttpPost _ _ => true | HttpGet _ _ => true | _ => false end.

(** Anything done with the destination client, its construction included. *)
Definition destination_call (e : event) : bool :=
  match e with
  | VisionNew _ => true
  | VisionLogin _ => true
  | CreateGroup _ _ _ _ => true
  | AddUser _ _ _ _ _ => true
  | _ => false
  end.

Definition is_file_write (e : event) : bool :=
  match e with FileWrite _ _ => true | _ => false end.

Definition is_file_read (e : event) : bool :=
  match e with FileRead _ => true | _ => false end.

Definition destination_credentials (a : args) : bool :=
  given (cc_address a) && given (cc_username a) && given (cc_password a).

Definition source_credentials (a : args) : bool :=
  given (mssp_address a) && given (mssp_username a) && given (mssp_password a).

(** ** Source login *)

(** [response.cookies.get('sessionid')] *)
Definition session_cookie (r : response) : option string :=
  snd <$> List.find (fun kv => String.eqb (fst kv) "sessionid") (cookies r).

(** ** Listing calls that raise *)

(** What a listing call [m] does in state [s] when it does not degrade: a
    transport error, a body that is not JSON, or JSON that is not an object,
    with status 200, each raise. *)
Definition listing_raises {W : Type} (env : Env W) (url cookie : string)
    (m : IO W pyval) (s : state W) : Prop :=
  forall (answer : result response) (w' : W),
    requests_get env url cookie (world s) = (answer, w') ->
    let s' := {| world := w'; calls := calls s ++ [HttpGet url cookie] |} in
    match answer with
    | Raise e => m s = (Raise e, s')
    | Ok r =>
        status_code r = 200%Z ->
        match json r with
        | Raise e => m s = (Raise e, s')
        | Ok (PDict _) => True
        | Ok _ => m s = (Raise AttributeError, s')
        end
    end.

(** ** Assets and users, list-wide *)

Definition policies_of (d : list (string * pyval)) : list pyval :=
  match Py.dict_lookup d "policies" with
  | Some (PList l) => l
  | _ => []
  end.

(** An asset record whose policies, when present, are a list of strings. *)
Definition asset_ok (v : pyval) : bool :=
  match v with
  | PDict d => opt_ok (list_of is_str) (Py.dict_lookup d "policies")
  | _ => false
  end.

Definition asset_line (v : pyval) : pyval :=
  match v with
  | PDict d => PStr (String.concat ", " (map str_of (policies_of d)))
  | _ => PNone
  end.

(** The role [select_new_role] gives for a list of roles. *)
Definition new_role_of (roles : list pyval) : pyval :=
  if has_roleb roles "userAdmin" then admin_id
  else if has_roleb roles "basicUser" then user_id
  else if has_roleb roles "dashboardUser" then viewer_id
  else if has_roleb roles "userViewer" then viewer_id
  else PNone.

Definition user_ok (v : pyval) : bool :=
  match v with
  | PDict d => well_formed_user d
  | _ => false
  end.

(** The user info of a well-typed user record, field by field. *)
Definition user_info_for (v : pyval) : pyval :=
  match v with
  | PDict u =>
      PDict
        [ ("Name", default PNone (Py.dict_lookup u "name"));
          ("Username", default (PStr "N/A") (Py.dict_lookup u "username"));
          ("Role", default (PStr "N/A") (Py.dict_lookup u "role"));
          ("Email", default PNone (Py.dict_lookup u "email"));
          ("Auth Type", default PNone (Py.dict_lookup u "auth_type"));
          ("Account OID", default (PStr "N/A") (account_oid_field u));
          ("Role (Current)", PStr (roles_display (current_roles u)));
          ("New Role", new_role_of (current_roles u));
          ("Allowed IP Address", first_ip_of (allowed_ips u));
          ("Notes", default (PStr "") (Py.dict_lookup u "notes")) ]
  | _ => PNone
  end.

(** ** What the import passes to the destination client *)

Definition vision_eqb (a b : vision) : bool :=
  String.eqb (vision_address a) (vision_address b) &&
  String.eqb (vision_username a) (vision_username b) &&
  String.eqb (vision_password a) (vision_password b).

(** The call is made on client [v], with the dry-run flag [dry], the
    password [pw] and a group name of at most 31 characters, or is a log
    line. *)
Definition honours (v : vision) (pw : string) (dry : bool) (e : event) : bool :=
  match e with
  | VisionLogin v' => vision_eqb v' v
  | CreateGroup v' name _ d =>
      vision_eqb v' v && Bool.eqb d dry && Nat.leb (String.length name) 31
  | AddUser v' _ name pw' d =>
      vision_eqb v' v && String.eqb pw' pw && Bool.eqb d dry
      && Nat.leb (String.length name) 31
  | Logged _ _ => true
  | Stdout _ => true
  | _ => false
  end.

(** ** The requests of an export *)

Definition assets_url {W : Type} (env : Env W) (mssp_address : string)
    (account_id : pyval) : string :=
  ("https://" +:+ mssp_address +:+ "/api/assets/") +:+
  "?type=account&id=" +:+ fstr env account_id.

Definition users_url {W : Type} (env : Env W) (mssp_address : string)
    (account_id : pyval) : string :=
  ("https://" +:+ mssp_address +:+ "/api/users/") +:+
  "?type=account&id=" +:+ fstr env account_id.

(** The two requests made for an account record. *)
Definition requests_for {W : Type} (env : Env W) (session_id mssp_address : string)
    (account : pyval) : list event :=
  match account with
  | PDict d =>
      [ HttpGet (assets_url env mssp_address (account_id_of d))
                ("sessionid=" +:+ session_id);
        HttpGet (users_url env mssp_address (account_id_of d))
                ("sessionid=" +:+ session_id) ]
  | _ => []
  end.

(** ** Snapshot file names *)

(** The file a snapshot with base name [base] goes to at timestamp [t]. *)
Definition snapshot_path {W : Type} (env : Env W) (base t : string) : string :=
  path_join (path_join (script_dir env) "config")
            (base +:+ "_" +:+ t +:+ ".json").

(** ** What a whole run passes to the destination *)

(** In a run with arguments [a], the call is not a destination call, or it
    is made on the client built from the destination arguments, with the
    run's dry-run flag and password and a group name of at most 31
    characters. *)
Definition run_call_ok (a : args) (e : event) : bool :=
  match e with
  | VisionNew v => vision_eqb v (controller_of a)
  | VisionLogin _ | CreateGroup _ _ _ _ | AddUser _ _ _ _ _ =>
      honours (controller_of a) (password_of a) (dry_run a) e
  | _ => true
  end.

(** ** Role collections that are not lists *)

(** Null, a boolean or a number. *)
Definition not_iterable (v : pyval) : bool :=
  match v with
  | PNone => true
  | PBool _ => true
  | PInt _ => true
  | PFloat _ => true
  | _ => false
  end.

(** * A concrete deployment, used to run the model

    A source portal at [mssp.example] with two customer accounts and one
    reseller account; a destination controller that accepts the password
    [cc-secret] and refuses to create any group whose name starts with
    [Acme]. *)

Module Demo.

Definition alice : pyval :=
  PDict [ ("name", PStr "Alice A");
          ("username", PStr "alice");
          ("role", PStr "user");
          ("email", PStr "alice@acme.example");
          ("auth_type", PStr "local");
          ("account", PDict [("_oid", PStr "oid1")]);
          ("roles", PDict [("currentAccount",
                            PList [PStr "userViewer"; PStr "basicUser"])]);
          ("auth_meta", PDict [("allowed_ip_list",
                                PList [PStr "10.0.0.1"; PStr "10.0.0.2"])]);
          ("notes", PStr "first contact") ].

Definition bob : pyval :=
  PDict [ ("username", PStr "bob"); ("role", PStr "operator") ].

Definition carol : pyval :=
  PDict [ ("role", PStr "user"); ("email", PStr "carol@globex.example") ].

Definition acme : pyval :=
  PDict [ ("_id", PDict [("_oid", PStr "oid1")]);
          ("name", PStr "Acme");
          ("_type", PStr "CustomerAccount");
          ("services", PList [PDict [("service_type", PStr "ddos");
                                     ("status", PStr "active")]]) ].

Definition reseller : pyval :=
  PDict [ ("_id", PDict [("_oid", PStr "oid2")]);
          ("name", PStr "Reseller");
          ("_type", PStr "ResellerAccount") ].

Definition longname : pyval :=
  PDict [ ("_id", PDict [("_oid", PStr "abc123")]);
          ("name", PStr "VeryLongCustomerNameExceedingLimit");
          ("_type", PStr "CustomerAccount") ].

Definition globex : pyval :=
  PDict [ ("_id", PDict [("_oid", PStr "oid3")]);
          ("name", PStr "Globex");
          ("_type", PStr "CustomerAccount") ].

Definition envelope (reply : pyval) : response :=
  {| status_code := 200; cookies := []; json := Ok (PDict [("reply", reply)]) |}.

Definition refused (status : Z) : response :=
  {| status_code := status; cookies := []; json := Raise JSONDecodeError |}.

Definition api : string := "https://mssp.example/api/".

Definition serve_get (url cookie : string) : response :=
  if negb (String.eqb cookie "sessionid=s3cr3t") then refused 401
  else if String.eqb url (api +:+ "accounts/")
  then envelope (PList [acme; reseller; longname; globex])
  else if String.eqb url (api +:+ "assets/?type=account&id=oid1")
  then envelope (PList [PDict [("policies", PList [PStr "p1"; PStr "p2"])]])
  else if String.eqb url (api +:+ "users/?type=account&id=oid1")
  then envelope (PList [alice; bob])
  else if String.eqb url (api +:+ "users/?type=account&id=abc123")
  then envelope (PList [bob])
  else if String.eqb url (api +:+ "users/?type=account&id=oid3")
  then envelope (PList [carol])
  else if String.eqb url (api +:+ "assets/?type=account&id=oid3")
  then refused 503
  else if String.prefix api url
  then {| status_code := 200; cookies := []; json := Ok (PDict []) |}
  else refused 404.

Definition serve_post (url data : string) : response :=
  if String.eqb url (api +:+ "auth/")
     && String.eqb data "u=admin@local.com&p=password"
  then {| status_code := 200; cookies := [("sessionid", "s3cr3t")];
          json := Ok (PDict []) |}
  else refused 401.

(** The state of the world: the files written so far. *)
Definition files : Type := list (string * pyval).

Definition env : Env files := {|
  requests_post := fun url data w => (Ok (serve_post url data), w);
  requests_get := fun url cookie w => (Ok (serve_get url cookie), w);
  read_json := fun filename w =>
    match List.find (fun f => String.eqb (fst f) filename) w with
    | Some f => (Ok (snd f), w)
    | None => (Raise OSError, w)
    end;
  write_json := fun filename data w => (Ok tt, (filename, data) :: w);
  strftime_now := fun _ => "2024-02-22_16-46-54";
  script_dir := "/opt/migration";
  vision_new := fun _ w => (Ok tt, w);
  vision_login := fun v w => (Ok (String.eqb (vision_password v) "cc-secret"), w);
  vision_create_cc_group := fun _ name _ _ w =>
    (Ok (negb (String.prefix "Acme" name)), w);
  vision_add_user_to_group := fun _ _ _ _ _ w => (Ok tt, w);
  str_other := fun _ => "?"
|}.

Definition start : state files := {| world := []; calls := [] |}.

Definition controller : vision :=
  {| vision_address := "172.17.154.101"; vision_username := "radware";
     vision_password := "cc-secret" |}.

Definition live_args : args :=
  {| mssp_address := Some "mssp.example";
     mssp_username := Some "admin@local.com";
     mssp_password := Some "password";
     cc_address := Some "172.17.154.101";
     cc_username := Some "radware";
     cc_password := Some "cc-secret";
     export_file := None;
     import_from_file := false;
     config_file := None;
     dry_run := false;
     initial_user_password := None |}.

Definition live_args_with_snapshot : args :=
  {| mssp_address := Some "mssp.example";
     mssp_username := Some "admin@local.com";
     mssp_password := Some "password";
     cc_address := Some "172.17.154.101";
     cc_username := Some "radware";
     cc_password := Some "cc-secret";
     export_file := Some "export";
     import_from_file := false;
     config_file := None;
     dry_run := false;
     initial_user_password := None |}.

End Demo.

(** A client object carrying a password the controller rejects. *)
Definition wrong_password : vision :=
  {| vision_address := "172.17.154.101"; vision_username := "radware";
     vision_password := "guess" |}.

(** The two-account document of the failure-isolation scenario. *)
Definition acme_entry : pyval :=
  PDict [ ("Account Name", PStr "Acme");
          ("Type", PStr "CustomerAccount");
          ("Account OID", PStr "oid1");
          ("Assets", PList [PStr "p1, p2"]);
          ("Users", PList [PDict [ ("Username", PStr "alice");
                                   ("Role (Current)", PStr "basicUser");
                                   ("New Role", PStr "MSSP_PORTAL_USER") ]]) ].

Definition globex_entry : pyval :=
  PDict [ ("Account Name", PStr "Globex");
          ("Type", PStr "CustomerAccount");
          ("Account OID", PStr "oid3");
          ("Assets", PList []);
          ("Users", PList [PDict [("Username", PStr "carol")]]) ].

(** The document the demonstration portal exports. *)
Definition exported : pyval :=
  PList
    [ PDict [ ("Account Name", PStr "Acme");
              ("Type", PStr "CustomerAccount");
              ("Account OID", PStr "oid1");
              ("Assets", PList [PStr "p1, p2"]);
              ("Users",
               PList [PDict [ ("Name", PStr "Alice A");
                              ("Username", PStr "alice");
                              ("Role", PStr "user");
                              ("Email", PStr "alice@acme.example");
                              ("Auth Type", PStr "local");
                              ("Account OID", PStr "oid1");
                              ("Role (Current)", PStr "userViewer, basicUser");
                              ("New Role", PStr "MSSP_PORTAL_USER");
                              ("Allowed IP Address", PStr "10.0.0.1");
                              ("Notes", PStr "first contact") ]]) ];
      PDict [ ("Account Name", PStr "VeryLongCustomerNameExceedingLimit");
              ("Type", PStr "CustomerAccount");
              ("Account OID", PStr "abc123");
              ("Assets", PList []);
              ("Users", PList []) ];
      PDict [ ("Account Name", PStr "Globex");
              ("Type", PStr "CustomerAccount");
              ("Account OID", PStr "oid3");
              ("Assets", PList []);
              ("Users",
               PList [PDict [ ("Name", PNone);
                              ("Username", PStr "N/A");
                              ("Role", PStr "user");
                              ("Email", PStr "carol@globex.example");
                              ("Auth Type", PNone);
                              ("Account OID", PStr "N/A");
                              ("Role (Current)", PStr "None");
                              ("New Role", PNone);
                              ("Allowed IP Address", PStr "");
                              ("Notes", PStr "") ]]) ] ].

(** The states of a live run after the source login and after the export. *)
Definition after_login : state Demo.files :=
  snd (source_login Demo.env Demo.live_args Demo.start).

Definition after_export : state Demo.files :=
  snd (build_structured_export Demo.env "s3cr3t" "mssp.example" after_login).

(** The replay flag with no configuration file. *)
Definition replay_without_file : args :=
  {| mssp_address := None; mssp_username := None; mssp_password := None;
     cc_address := Some "172.17.154.101"; cc_username := Some "radware";
     cc_password := Some "cc-secret"; export_file := None;
     import_from_file := true; config_file := None; dry_run := true;
     initial_user_password := None |}.

(** Live mode with a source password the portal rejects. *)
Definition wrong_source_password : args :=
  {| mssp_address := Some "mssp.example";
     mssp_username := Some "admin@local.com";
     mssp_password := Some "wrong";
     cc_address := Some "172.17.154.101"; cc_username := Some "radware";
     cc_password := Some "cc-secret"; export_file := None;
     import_from_file := false; config_file := None; dry_run := false;
     initial_user_password := None |}.

(** A state holding one snapshot file with a one-account document. *)
Definition with_snapshot : state Demo.files :=
  {| world := [("snap.json", PList [globex_entry])]; calls := [] |}.

Definition replay_args : args :=
  {| mssp_address := None; mssp_username := None; mssp_password := None;
     cc_address := Some "172.17.154.101"; cc_username := Some "radware";
     cc_password := Some "cc-secret"; export_file := None;
     import_from_file := true; config_file := Some "snap.json"; dry_run := true;
     initial_user_password := Some "Ch@ngeMe9" |}.

(** A portal that answers 200 with an HTML error page. *)
Definition html_portal : Env Demo.files := {|
  requests_post := requests_post Demo.env;
  requests_get := fun _ _ w =>
    (Ok {| status_code := 200; cookies := []; json := Raise JSONDecodeError |}, w);
  read_json := read_json Demo.env;
  write_json := write_json Demo.env;
  strftime_now := strftime_now Demo.env;
  script_dir := script_dir Demo.env;
  vision_new := vision_new Demo.env;
  vision_login := vision_login Demo.env;
  vision_create_cc_group := vision_create_cc_group Demo.env;
  vision_add_user_to_group := vision_add_user_to_group Demo.env;
  str_other := str_other Demo.env
|}.

(** An account with two users, on a controller that accepts its group. *)
Definition initech_entry : pyval :=
  PDict [ ("Account Name", PStr "Initech");
          ("Account OID", PStr "oid7");
          ("Assets", PList [PStr "edge"]);
          ("Users", PList [ PDict [("Username", PStr "peter")];
                            PDict [("Username", PStr "samir")] ]) ].

(** An entry whose user list is missing. *)
Definition no_users_entry : pyval :=
  PDict [ ("Account Name", PStr "Hooli");
          ("Account OID", PStr "oid9");
          ("Assets", PList []) ].

(** * Properties *)

(** ** Role selection *)

Lemma eq_str_true (x : pyval) (s : string) :
  Py.eq_str x s = true <-> x = PStr s.
Proof.
  destruct x; simpl; try (split; [discriminate | intros [=]]).
  rewrite String.eqb_eq. split; [intros -> | intros [= ->]]; reflexivity.
Qed.

Lemma has_roleb_spec (roles : list pyval) (r : string) :
  has_roleb roles r = true <-> has_role roles r.
Proof.
  unfold has_roleb, has_role. rewrite existsb_exists. split.
  - intros (x & Hin & Hx). apply eq_str_true in Hx. subst x. exact Hin.
  - intros Hin. exists (PStr r). split; [exact Hin | apply eq_str_true; reflexivity].
Qed.

Lemma has_roleb_false (roles : list pyval) (r : string) :
  has_roleb roles r = false <-> ~ has_role roles r.
Proof.
  rewrite <- has_roleb_spec. destruct (has_roleb roles r); split; congruence.
Qed.

(** The scan over a list, as a cascade of membership tests. *)
Lemma select_new_role_cascade (roles : list pyval) :
  select_new_role (PList roles) =
  Ok (if has_roleb roles "userAdmin" then admin_id
      else if has_roleb roles "basicUser" then user_id
      else if has_roleb roles "dashboardUser" then viewer_id
      else if has_roleb roles "userViewer" then viewer_id
      else PNone).
Proof.
  unfold select_new_role, role_priority, scan_roles, Py.contains, bindR.
  fold (has_roleb roles "userAdmin") (has_roleb roles "basicUser")
       (has_roleb roles "dashboardUser") (has_roleb roles "userViewer").
  destruct (has_roleb roles "userAdmin"); [reflexivity |].
  destruct (has_roleb roles "basicUser"); [reflexivity |].
  destruct (has_roleb roles "dashboardUser"); [reflexivity |].
  destruct (has_roleb roles "userViewer"); reflexivity.
Qed.

Lemma role_rank_cases (r : string) (k : nat) :
  role_rank r = Some k ->
  (r = "userAdmin" /\ k = 0) \/ (r = "basicUser" /\ k = 1) \/
  (r = "dashboardUser" /\ k = 2) \/ (r = "userViewer" /\ k = 2).
Proof.
  unfold role_rank.
  destruct (String.eqb_spec r "userAdmin"); [intros [= <-]; auto |].
  destruct (String.eqb_spec r "basicUser"); [intros [= <-]; auto |].
  destruct (String.eqb_spec r "dashboardUser"); [intros [= <-]; auto |].
  destruct (String.eqb_spec r "userViewer"); [intros [= <-]; auto 6 |].
  discriminate.
Qed.

Lemma top_role_excludes (roles : list pyval) (r r' : string) (k k' : nat) :
  top_role roles r -> role_rank r = Some k -> role_rank r' = Some k' ->
  k' < k -> has_roleb roles r' = false.
Proof.
  intros (_ & k0 & Hk0 & Hmin) Hk Hk' Hlt.
  apply has_roleb_false. intros Hin.
  specialize (Hmin r' k' Hin Hk'). rewrite Hk in Hk0. injection Hk0 as <-. lia.
Qed.

(** C1. On every list of current-account roles [select_new_role] returns,
    without raising, the destination identifier of the highest-priority
    recognised role under userAdmin > basicUser > dashboardUser = userViewer:
    the identifier mapped to the first role of the fixed scan order that is
    present; with userAdmin present it is the admin identifier whatever else
    is present; with none of the four roles present it is None. *)
Theorem select_new_role_priority (roles : list pyval) :
  (exists out, select_new_role (PList roles) = Ok out) /\
  (forall r, top_role roles r ->
     exists d, destination_of r = Some d /\ select_new_role (PList roles) = Ok d) /\
  select_new_role (PList roles) =
    Ok (match List.find (has_roleb roles) role_priority with
        | Some r => default PNone (destination_of r)
        | None => PNone
        end) /\
  (has_role roles "userAdmin" -> select_new_role (PList roles) = Ok admin_id) /\
  ((forall r, In r role_priority -> ~ has_role roles r) ->
     select_new_role (PList roles) = Ok PNone).
Proof.
  rewrite select_new_role_cascade. repeat split.
  - eexists; reflexivity.
  - intros r Htop. pose proof Htop as (Hin & k & Hk & _).
    apply has_roleb_spec in Hin.
    destruct (role_rank_cases r k Hk) as [[-> ->]|[[-> ->]|[[-> ->]|[-> ->]]]].
    + exists admin_id. rewrite Hin. split; reflexivity.
    + exists user_id.
      rewrite (top_role_excludes roles "basicUser" "userAdmin" 1 0) by (auto; reflexivity).
      rewrite Hin. split; reflexivity.
    + exists viewer_id.
      rewrite (top_role_excludes roles "dashboardUser" "userAdmin" 2 0) by (auto; reflexivity).
      rewrite (top_role_excludes roles "dashboardUser" "basicUser" 2 1) by (auto; reflexivity).
      rewrite Hin. split; reflexivity.
    + exists viewer_id.
      rewrite (top_role_excludes roles "userViewer" "userAdmin" 2 0) by (auto; reflexivity).
      rewrite (top_role_excludes roles "userViewer" "basicUser" 2 1) by (auto; reflexivity).
      rewrite Hin. destruct (has_roleb roles "dashboardUser"); split; reflexivity.
  - unfold role_priority, List.find.
    destruct (has_roleb roles "userAdmin"); [reflexivity |].
    destruct (has_roleb roles "basicUser"); [reflexivity |].
    destruct (has_roleb roles "dashboardUser"); [reflexivity |].
    destruct (has_roleb roles "userViewer"); reflexivity.
  - intros Hin. apply has_roleb_spec in Hin. rewrite Hin. reflexivity.
  - intros Hnone.
    rewrite !(proj2 (has_roleb_false roles _)); [reflexivity | | | |];
      apply Hnone; unfold role_priority; simpl; auto.
Qed.

(** Both viewer roles held together with a basic user, in any order. *)
Example select_new_role_mixed :
  select_new_role (PList [PStr "userViewer"; PStr "operator"; PStr "basicUser";
                          PStr "dashboardUser"])
  = Ok (PStr "MSSP_PORTAL_USER").
Proof. reflexivity. Qed.

(** Off the documented input type: a null role collection raises, and a
    string is searched for the role names as substrings. *)
Example select_new_role_untyped :
  select_new_role PNone = Raise TypeError /\
  select_new_role (PStr "userViewer") = Ok (PStr "MSSP_PORTAL_VIEWER").
Proof. split; reflexivity. Qed.

Lemma has_roleb_cons (x : pyval) (roles : list pyval) (r : string) :
  has_roleb (x :: roles) r = Py.eq_str x r || has_roleb roles r.
Proof. reflexivity. Qed.

Lemma scan_roles_range (v out : pyval) :
  select_new_role v = Ok out ->
  out = PNone \/ out = admin_id \/ out = user_id \/ out = viewer_id.
Proof.
  unfold select_new_role, role_priority, scan_roles.
  destruct (Py.contains "userAdmin" v) as [[]|]; simpl;
    [intros [= <-]; auto | | discriminate].
  destruct (Py.contains "basicUser" v) as [[]|]; simpl;
    [intros [= <-]; auto | | discriminate].
  destruct (Py.contains "dashboardUser" v) as [[]|]; simpl;
    [intros [= <-]; auto | | discriminate].
  destruct (Py.contains "userViewer" v) as [[]|]; simpl;
    [intros [= <-]; auto | intros [= <-]; auto | discriminate].
Qed.

Lemma scan_roles_viewer_swap (v : pyval) :
  scan_roles viewer_swapped_priority v = select_new_role v.
Proof.
  unfold select_new_role, role_priority, viewer_swapped_priority, scan_roles.
  destruct v; try reflexivity; unfold Py.contains, bindR;
    repeat match goal with
           | |- context [if ?b then _ else _] => destruct b; try reflexivity
           end.
Qed.

(** C10. [select_new_role] returns None or one of exactly three identifiers,
    MSSP_PORTAL_ADMIN, MSSP_PORTAL_USER and MSSP_PORTAL_VIEWER, each of which
    is returned on some input; dashboardUser and userViewer both give
    MSSP_PORTAL_VIEWER, so the result is the same with either or both of them
    present, and exchanging the two in the scan order changes no result. *)
Theorem select_new_role_range :
  (forall v out, select_new_role v = Ok out ->
     out = PNone \/ out = admin_id \/ out = user_id \/ out = viewer_id) /\
  (select_new_role (PList []) = Ok PNone /\
   select_new_role (PList [PStr "userAdmin"]) = Ok (PStr "MSSP_PORTAL_ADMIN") /\
   select_new_role (PList [PStr "basicUser"]) = Ok (PStr "MSSP_PORTAL_USER") /\
   select_new_role (PList [PStr "dashboardUser"]) = Ok (PStr "MSSP_PORTAL_VIEWER") /\
   select_new_role (PList [PStr "userViewer"]) = Ok (PStr "MSSP_PORTAL_VIEWER")) /\
  (forall roles,
     select_new_role (PList (PStr "userViewer" :: roles)) =
       select_new_role (PList (PStr "dashboardUser" :: roles)) /\
     select_new_role (PList (PStr "dashboardUser" :: PStr "userViewer" :: roles)) =
       select_new_role (PList (PStr "dashboardUser" :: roles)) /\
     select_new_role (PList (PStr "userViewer" :: PStr "dashboardUser" :: roles)) =
       select_new_role (PList (PStr "dashboardUser" :: roles))) /\
  (forall v, scan_roles viewer_swapped_priority v = select_new_role v).
Proof.
  split; [exact scan_roles_range |].
  split; [repeat split; reflexivity |].
  split; [| exact scan_roles_viewer_swap].
  intros roles. rewrite !select_new_role_cascade, !has_roleb_cons. simpl.
  destruct (has_roleb roles "userAdmin"), (has_roleb roles "basicUser"),
    (has_roleb roles "dashboardUser"), (has_roleb roles "userViewer");
    repeat split; reflexivity.
Qed.

(** ** The call log only grows *)

Lemma grows_ret {W A : Type} (a : A) : grows (@ret W A a).
Proof. intros s. exists []. simpl. rewrite app_nil_r. reflexivity. Qed.

Lemma grows_raise {W A : Type} (e : exn) : grows (@raise W A e).
Proof. intros s. exists []. simpl. rewrite app_nil_r. reflexivity. Qed.

Lemma grows_lift {W A : Type} (r : result A) : grows (@lift W A r).
Proof. intros s. exists []. simpl. rewrite app_nil_r. reflexivity. Qed.

Lemma grows_emit {W : Type} (e : event) : grows (@emit W e).
Proof. intros s. exists [e]. reflexivity. Qed.

Lemma grows_call {W A : Type} (e : event) (op : W -> result A * W) :
  grows (call e op).
Proof. intros s. exists [e]. unfold call. destruct (op (world s)). reflexivity. Qed.

Lemma grows_bind {W A B : Type} (m : IO W A) (k : A -> IO W B) :
  grows m -> (forall a, grows (k a)) -> grows (bindIO m k).
Proof.
  intros Hm Hk s. unfold bindIO. destruct (Hm s) as [r1 H1].
  destruct (m s) as [[a|e] s1]; simpl in *.
  - destruct (Hk a s1) as [r2 H2]. exists (r1 ++ r2).
    rewrite H2, H1, app_assoc. reflexivity.
  - exists r1. exact H1.
Qed.

Lemma grows_for_io {W A : Type} (body : A -> IO W unit) (l : list A) :
  (forall x, grows (body x)) -> grows (for_io body l).
Proof.
  intros Hbody. induction l as [|x l IH]; simpl.
  - apply grows_ret.
  - apply grows_bind; [apply Hbody | intros _; exact IH].
Qed.

Lemma grows_add_users {W : Type} (env : Env W) (v : vision) (name pw : string)
    (dry : bool) (users : list pyval) :
  grows (add_users env v name pw dry users).
Proof. apply grows_for_io. intros x. apply grows_call. Qed.

(** ** Destination group name *)

Lemma substring_0_length (n : nat) (s : string) :
  String.length (String.substring 0 n s) = Nat.min n (String.length s).
Proof.
  revert s. induction n as [|n IH]; intros s.
  - destruct s; reflexivity.
  - destruct s as [|c s]; simpl; [reflexivity | rewrite IH; reflexivity].
Qed.

Lemma substring_0_prefix (n : nat) (s : string) :
  String.prefix (String.substring 0 n s) s = true.
Proof.
  revert s. induction n as [|n IH]; intros s.
  - destruct s; reflexivity.
  - destruct s as [|c s]; simpl; [reflexivity |].
    destruct (Ascii.ascii_dec c c); [apply IH | congruence].
Qed.

Lemma append_assoc (a b c : string) : (a +:+ b) +:+ c = a +:+ (b +:+ c).
Proof.
  induction a as [|x a IH]; [reflexivity |].
  change (String x ((a +:+ b) +:+ c) = String x (a +:+ (b +:+ c))).
  rewrite IH. reflexivity.
Qed.

(** C2. For an account entry whose name and OID are strings, the group name
    the import computes is the name, an underscore and the OID, cut to its
    first 31 characters (whole when shorter), and that is the name handed to
    the group-creation call. *)
Theorem group_name_truncated (d : list (string * pyval)) (name oid : string) :
  Py.dict_lookup d "Account Name" = Some (PStr name) ->
  Py.dict_lookup d "Account OID" = Some (PStr oid) ->
  let full := name +:+ "_" +:+ oid in
  let cut := String.substring 0 31 full in
  cc_group_name_of (PDict d) = Ok cut /\
  String.length cut = Nat.min 31 (String.length full) /\
  String.prefix cut full = true /\
  forall (W : Type) (env : Env W) (v : vision) (pw : string) (dry : bool)
         (assets : pyval) (s : state W),
    Py.dict_lookup d "Assets" = Some assets ->
    exists rest,
      calls (snd (import_group env v pw dry (PDict d) s)) =
      calls s ++ CreateGroup v cut assets dry :: rest.
Proof.
  intros Hname Hoid full cut.
  assert (Hcut : cc_group_name_of (PDict d) = Ok cut).
  { unfold cc_group_name_of, Py.getitem, bindR. rewrite Hname. simpl.
    rewrite Hoid. simpl. unfold Py.slice_to, cut, full.
    rewrite append_assoc. reflexivity. }
  split; [exact Hcut |].
  split; [apply substring_0_length |].
  split; [apply substring_0_prefix |].
  intros W env v pw dry assets s Hassets.
  unfold import_group. unfold bindIO at 1. unfold lift at 1. rewrite Hcut.
  unfold bindIO at 1. unfold lift at 1. unfold Py.getitem at 1. rewrite Hassets.
  unfold bindIO at 1. unfold call at 1.
  destruct (vision_create_cc_group env v cut assets dry (world s)) as [[[]|e] w'].
  - match goal with
    | |- context [bindIO ?m ?k ?s0] =>
        destruct (grows_bind m k (grows_lift _)
                    (fun users => grows_bind _ _ (grows_lift _)
                       (fun items => grows_add_users env v cut pw dry items)) s0)
          as [rest Hrest]
    end.
    exists rest. rewrite Hrest. simpl. rewrite <- app_assoc. reflexivity.
  - eexists. unfold bindIO, log_error, emit. simpl.
    rewrite <- !app_assoc. simpl. reflexivity.
  - exists []. reflexivity.
Qed.

(** C2, run on the account of the specification's example. *)
Lemma group_name_truncated_example :
  cc_group_name_of
    (PDict [ ("Account Name", PStr "VeryLongCustomerNameExceedingLimit");
             ("Type", PStr "CustomerAccount");
             ("Account OID", PStr "abc123");
             ("Assets", PList []);
             ("Users", PList []) ])
  = Ok "VeryLongCustomerNameExceedingLi" /\
  String.length "VeryLongCustomerNameExceedingLi" = 31.
Proof.
  split; [| reflexivity].
  exact (proj1 (group_name_truncated
                  [ ("Account Name", PStr "VeryLongCustomerNameExceedingLimit");
                    ("Type", PStr "CustomerAccount");
                    ("Account OID", PStr "abc123");
                    ("Assets", PList []);
                    ("Users", PList []) ]
                  "VeryLongCustomerNameExceedingLimit" "abc123"
                  eq_refl eq_refl)).
Defined.

(** ** User records *)

Lemma get_dict (d : list (string * pyval)) (k : string) (dflt : pyval) :
  Py.get (PDict d) k dflt = Ok (default dflt (Py.dict_lookup d k)).
Proof. unfold Py.get. destruct (Py.dict_lookup d k); reflexivity. Qed.

Lemma strings_of_strs (l : list pyval) :
  forallb is_str l = true -> Py.strings_of l = Ok (map str_of l).
Proof.
  induction l as [|x l IH]; simpl; [reflexivity |].
  intros H. apply andb_prop in H as [Hx Hl].
  destruct x; try discriminate. rewrite (IH Hl). reflexivity.
Qed.

Lemma join_strs (sep : string) (l : list pyval) :
  forallb is_str l = true ->
  Py.join sep (PList l) = Ok (String.concat sep (map str_of l)).
Proof. intros H. unfold Py.join. simpl. rewrite (strings_of_strs l H). reflexivity. Qed.

Lemma bindR_ok {A B : Type} (a : A) (k : A -> result B) : bindR (Ok a) k = k a.
Proof. reflexivity. Qed.

Ltac step := rewrite bindR_ok; cbv beta.

Lemma account_oid_read (u : list (string * pyval)) :
  well_formed_user u = true ->
  Py.get (default (PDict []) (Py.dict_lookup u "account")) "_oid" (PStr "N/A")
  = Ok (default (PStr "N/A") (account_oid_field u)).
Proof.
  unfold well_formed_user, account_oid_field. intros Hwf.
  apply andb_prop in Hwf as [Hwf _]. apply andb_prop in Hwf as [Ha _].
  destruct (Py.dict_lookup u "account") as [[| | | | | |a]|];
    try discriminate; apply get_dict.
Qed.

Lemma current_roles_read (u : list (string * pyval)) :
  well_formed_user u = true ->
  Py.get (default (PDict []) (Py.dict_lookup u "roles")) "currentAccount" (PList [])
  = Ok (PList (current_roles u)) /\
  forallb is_str (current_roles u) = true.
Proof.
  unfold well_formed_user, current_roles. intros Hwf.
  apply andb_prop in Hwf as [Hwf _]. apply andb_prop in Hwf as [_ Hr].
  destruct (Py.dict_lookup u "roles") as [[| | | | | |rd]|];
    try discriminate; [| split; reflexivity].
  simpl in Hr. simpl default. rewrite get_dict.
  destruct (Py.dict_lookup rd "currentAccount") as [[| | | | |l|]|];
    try discriminate; split; auto.
Qed.

Lemma allowed_ips_read (u : list (string * pyval)) :
  well_formed_user u = true ->
  Py.get (default (PDict []) (Py.dict_lookup u "auth_meta")) "allowed_ip_list"
         (PList [])
  = Ok (PList (allowed_ips u)).
Proof.
  unfold well_formed_user, allowed_ips. intros Hwf.
  apply andb_prop in Hwf as [_ Hm].
  destruct (Py.dict_lookup u "auth_meta") as [[| | | | | |md]|];
    try discriminate; [| reflexivity].
  simpl in Hm. simpl default. rewrite get_dict.
  destruct (Py.dict_lookup md "allowed_ip_list") as [[| | | | |l|]|];
    try discriminate; reflexivity.
Qed.

Lemma roles_string_read (roles : list pyval) :
  forallb is_str roles = true ->
  (if Py.truthy (PList roles) then Py.join ", " (PList roles) else Ok "None")
  = Ok (roles_display roles).
Proof.
  intros H. destruct roles as [|x l]; [reflexivity |].
  change (Py.truthy (PList (x :: l))) with true. cbv iota.
  rewrite (join_strs ", " (x :: l) H). reflexivity.
Qed.

Lemma first_ip_read (ips : list pyval) :
  (if Py.truthy (PList ips) then Py.first (PList ips) else Ok (PStr ""))
  = Ok (first_ip_of ips).
Proof. destruct ips; reflexivity. Qed.

Lemma user_info_of_well_formed (u : list (string * pyval)) :
  well_formed_user u = true ->
  exists new_role,
    select_new_role (PList (current_roles u)) = Ok new_role /\
    user_info_of (PDict u) =
    Ok (PDict
          [ ("Name", default PNone (Py.dict_lookup u "name"));
            ("Username", default (PStr "N/A") (Py.dict_lookup u "username"));
            ("Role", default (PStr "N/A") (Py.dict_lookup u "role"));
            ("Email", default PNone (Py.dict_lookup u "email"));
            ("Auth Type", default PNone (Py.dict_lookup u "auth_type"));
            ("Account OID", default (PStr "N/A") (account_oid_field u));
            ("Role (Current)", PStr (roles_display (current_roles u)));
            ("New Role", new_role);
            ("Allowed IP Address", first_ip_of (allowed_ips u));
            ("Notes", default (PStr "") (Py.dict_lookup u "notes")) ]).
Proof.
  intros Hwf.
  pose proof (select_new_role_cascade (current_roles u)) as Hnew.
  destruct (current_roles_read u Hwf) as [Hroles Hstrs].
  eexists. split; [exact Hnew |].
  unfold user_info_of. rewrite !get_dict. repeat step.
  rewrite (account_oid_read u Hwf). repeat step.
  rewrite Hroles. repeat step.
  rewrite (roles_string_read _ Hstrs). repeat step.
  rewrite Hnew. repeat step.
  rewrite (allowed_ips_read u Hwf). repeat step.
  rewrite first_ip_read. repeat step. reflexivity.
Qed.

(** C3. For a well-typed source user record, [build_users_info] on the
    singleton list returns one user info in which: Name and Email are the
    record's, None when missing; Username and Account OID are the record's,
    the literal N/A when missing; the role display string is the literal None
    for an empty current-account role set and the comma-joined roles
    otherwise; the allowed IP is the empty string for a missing or empty
    list and the first entry alone otherwise. *)
Theorem build_users_info_defaults (u : list (string * pyval)) :
  well_formed_user u = true ->
  exists info,
    build_users_info (PList [PDict u]) = Ok (PList [PDict info]) /\
    Py.dict_lookup info "Name" = Some (default PNone (Py.dict_lookup u "name")) /\
    Py.dict_lookup info "Email" = Some (default PNone (Py.dict_lookup u "email")) /\
    Py.dict_lookup info "Username" =
      Some (default (PStr "N/A") (Py.dict_lookup u "username")) /\
    Py.dict_lookup info "Account OID" =
      Some (default (PStr "N/A") (account_oid_field u)) /\
    Py.dict_lookup info "Role (Current)" =
      Some (PStr match current_roles u with
                 | [] => "None"
                 | _ :: _ => String.concat ", " (map str_of (current_roles u))
                 end) /\
    Py.dict_lookup info "Allowed IP Address" =
      Some match allowed_ips u with
           | [] => PStr ""
           | ip :: _ => ip
           end.
Proof.
  intros Hwf.
  destruct (user_info_of_well_formed u Hwf) as (new_role & _ & Hinfo).
  eexists. split.
  - unfold build_users_info. simpl Py.iter. step. simpl for_each.
    rewrite Hinfo. repeat step. reflexivity.
  - repeat split; reflexivity.
Qed.

(** C3, run on a record that has only a role and an e-mail address. *)
Lemma build_users_info_defaults_example :
  exists info,
    build_users_info (PList [Demo.carol]) = Ok (PList [PDict info]) /\
    Py.dict_lookup info "Name" = Some PNone /\
    Py.dict_lookup info "Email" = Some (PStr "carol@globex.example") /\
    Py.dict_lookup info "Username" = Some (PStr "N/A") /\
    Py.dict_lookup info "Account OID" = Some (PStr "N/A") /\
    Py.dict_lookup info "Role (Current)" = Some (PStr "None") /\
    Py.dict_lookup info "Allowed IP Address" = Some (PStr "").
Proof.
  exact (build_users_info_defaults
           [ ("role", PStr "user"); ("email", PStr "carol@globex.example") ]
           eq_refl).
Defined.

Example build_users_info_alice :
  build_users_info (PList [Demo.alice]) =
  Ok (PList [PDict [ ("Name", PStr "Alice A");
                     ("Username", PStr "alice");
                     ("Role", PStr "user");
                     ("Email", PStr "alice@acme.example");
                     ("Auth Type", PStr "local");
                     ("Account OID", PStr "oid1");
                     ("Role (Current)", PStr "userViewer, basicUser");
                     ("New Role", PStr "MSSP_PORTAL_USER");
                     ("Allowed IP Address", PStr "10.0.0.1");
                     ("Notes", PStr "first contact") ]]).
Proof. reflexivity. Qed.

(** Outside the typed reading the function raises: a null account. *)
Example build_users_info_null_account :
  build_users_info (PList [PDict [("account", PNone)]]) = Raise AttributeError.
Proof. reflexivity. Qed.

(** ** Filters *)

Lemma filterR_dicts (field wanted : string) (l : list pyval) :
  forallb is_dict l = true ->
  filterR (fun x => t <- Py.get x field PNone ;; Ok (Py.eq_str t wanted)) l
  = Ok (List.filter (field_is field wanted) l).
Proof.
  induction l as [|x l IH]; simpl; [reflexivity |].
  intros H. apply andb_prop in H as [Hx Hl].
  destruct x as [| | | | | |d]; try discriminate.
  rewrite get_dict. step. step. rewrite (IH Hl). step.
  unfold field_is. destruct (Py.dict_lookup d field) as [[]|]; reflexivity.
Qed.

Lemma filter_keeps_forallb {A : Type} (p q : A -> bool) (l : list A) :
  forallb p l = true -> forallb p (List.filter q l) = true.
Proof.
  induction l as [|x l IH]; simpl; [reflexivity |].
  intros H. apply andb_prop in H as [Hx Hl].
  destruct (q x); simpl; [rewrite Hx |]; auto.
Qed.

Lemma filter_twice {A : Type} (q : A -> bool) (l : list A) :
  List.filter q (List.filter q l) = List.filter q l.
Proof.
  induction l as [|x l IH]; simpl; [reflexivity |].
  destruct (q x) eqn:Hq; simpl; [rewrite Hq, IH |]; auto.
Qed.

Lemma filter_sublist {A : Type} (q : A -> bool) (l : list A) :
  sublist (List.filter q l) l.
Proof.
  induction l as [|x l IH]; simpl; [constructor |].
  destruct (q x); constructor; exact IH.
Qed.

Lemma forallb_is_dict_records (records : list (list (string * pyval))) :
  forallb is_dict (map PDict records) = true.
Proof. induction records; simpl; auto. Qed.

(** C7. On a list of records, each filter returns the records whose type
    tag (original role) is exactly the wanted string, in their input order:
    a subsequence of the input with nothing added; filtering the result
    again with the same wanted value returns it unchanged. *)
Theorem filters_exact_idempotent (records : list (list (string * pyval)))
    (wanted : string) :
  let input := map PDict records in
  let kept := fun field => List.filter (field_is field wanted) input in
  (filter_accounts_by_type (PList input) wanted = Ok (PList (kept "_type")) /\
   filter_users_by_role (PList input) wanted = Ok (PList (kept "role"))) /\
  (sublist (kept "_type") input /\ sublist (kept "role") input) /\
  (forall field x, In x (kept field) <-> In x input /\ field_is field wanted x = true) /\
  (filter_accounts_by_type (PList (kept "_type")) wanted = Ok (PList (kept "_type")) /\
   filter_users_by_role (PList (kept "role")) wanted = Ok (PList (kept "role"))).
Proof.
  intros input kept.
  pose proof (forallb_is_dict_records records) as Hd. fold input in Hd.
  unfold filter_accounts_by_type, filter_users_by_role, kept. simpl Py.iter.
  split; [| split; [| split]].
  - split; step.
    + rewrite (filterR_dicts "_type" wanted input Hd). reflexivity.
    + rewrite (filterR_dicts "role" wanted input Hd). reflexivity.
  - split; apply filter_sublist.
  - intros field x. apply filter_In.
  - split; step; rewrite filterR_dicts by (apply filter_keeps_forallb, Hd);
      step; rewrite filter_twice; reflexivity.
Qed.

(** The match is exact and case-sensitive, and an absent tag never matches. *)
Example filter_accounts_demo :
  filter_accounts_by_type
    (PList [ Demo.acme; Demo.reseller;
             PDict [("_type", PStr "customeraccount")];
             PDict [("name", PStr "untyped")];
             Demo.globex ])
    "CustomerAccount"
  = Ok (PList [Demo.acme; Demo.globex]).
Proof. reflexivity. Qed.

Example filter_users_demo :
  filter_users_by_role (PList [Demo.alice; Demo.bob; Demo.carol]) "user"
  = Ok (PList [Demo.alice; Demo.carol]).
Proof. reflexivity. Qed.

(** ** Listing calls *)

Lemma listing_call_degrades {W : Type} (env : Env W) (url cookie : string)
    (s : state W) :
  degrades_to_empty env url cookie
    (response <~ call (HttpGet url cookie) (requests_get env url cookie) ;;
     lift (reply_of response)) s.
Proof.
  intros r w' Hget s'. unfold bindIO, call, lift. rewrite Hget. fold s'.
  unfold reply_of. split.
  - intros Hne. apply Z.eqb_neq in Hne. rewrite Hne. reflexivity.
  - intros Heq body Hbody. apply Z.eqb_eq in Heq. rewrite Heq, Hbody. step.
    rewrite get_dict. reflexivity.
Qed.

(** C8. Each of the three listing calls returns the empty list, without
    raising, whenever the response status is not 200, and on status 200
    returns the reply field of the JSON envelope, the empty list when the
    field is absent. *)
Theorem listing_calls_degrade {W : Type} (env : Env W)
    (session_id mssp_address : string) (account_id : pyval) (s : state W) :
  let cookie := "sessionid=" +:+ session_id in
  let query := "?type=account&id=" +:+ fstr env account_id in
  degrades_to_empty env
    ("https://" +:+ mssp_address +:+ "/api/accounts/") cookie
    (fetch_all_accounts env session_id mssp_address) s /\
  degrades_to_empty env
    (("https://" +:+ mssp_address +:+ "/api/assets/") +:+ query) cookie
    (fetch_assets_for_account env session_id account_id mssp_address) s /\
  degrades_to_empty env
    (("https://" +:+ mssp_address +:+ "/api/users/") +:+ query) cookie
    (fetch_users_for_account env session_id account_id mssp_address) s.
Proof.
  intros cookie query. split; [| split].
  - exact (listing_call_degrades env _ cookie s).
  - exact (listing_call_degrades env _ cookie s).
  - exact (listing_call_degrades env _ cookie s).
Qed.

Example fetch_refused_is_empty :
  fst (fetch_users_for_account Demo.env "expired" (PStr "oid1") "mssp.example"
         Demo.start) = Ok (PList []) /\
  fst (fetch_assets_for_account Demo.env "s3cr3t" (PStr "oid3") "mssp.example"
         Demo.start) = Ok (PList []).
Proof. split; reflexivity. Qed.

Example fetch_accounts_demo :
  fst (fetch_all_accounts Demo.env "s3cr3t" "mssp.example" Demo.start)
  = Ok (PList [Demo.acme; Demo.reseller; Demo.longname; Demo.globex]).
Proof. reflexivity. Qed.

(** ** Import *)

(** C9. When the destination login does not succeed (it returns a false
    value, or raises), [import_mssp_config] makes the login call and nothing
    else: no group-creation and no user-creation call, whatever the
    document, the password and the dry-run flag. *)
Theorem import_aborts_on_failed_login {W : Type} (env : Env W) (v : vision)
    (config : pyval) (pw : string) (dry : bool) (s : state W)
    (r : result bool) (w' : W) :
  vision_login env v (world s) = (r, w') ->
  r <> Ok true ->
  let s' := {| world := w'; calls := calls s ++ [VisionLogin v] |} in
  import_mssp_config env v config pw dry s =
    (match r with Ok _ => Ok tt | Raise e => Raise e end, s') /\
  List.filter destination_write (calls s') = List.filter destination_write (calls s).
Proof.
  intros Hlogin Hfail s'. split.
  - unfold import_mssp_config, bindIO, call. rewrite Hlogin. fold s'.
    destruct r as [[]|e]; [congruence | reflexivity | reflexivity].
  - unfold s'. simpl. rewrite List.filter_app. simpl. apply app_nil_r.
Qed.

(** C9, run with a rejected controller password on a document with one account. *)
Lemma import_aborts_on_failed_login_example :
  import_mssp_config Demo.env wrong_password
    (PList [PDict [ ("Account Name", PStr "Globex");
                    ("Account OID", PStr "oid3");
                    ("Assets", PList []);
                    ("Users", PList [Demo.carol]) ]])
    default_password false Demo.start
  = (Ok tt, {| world := []; calls := [VisionLogin wrong_password] |}).
Proof.
  refine (proj1 (import_aborts_on_failed_login Demo.env wrong_password _ _ _
                   Demo.start (Ok false) [] eq_refl _)).
  discriminate.
Defined.

Lemma for_io_app {W A : Type} (body : A -> IO W unit) (l1 l2 : list A)
    (s : state W) :
  for_io body (l1 ++ l2) s =
  match for_io body l1 s with
  | (Ok _, s1) => for_io body l2 s1
  | (Raise e, s1) => (Raise e, s1)
  end.
Proof.
  revert s. induction l1 as [|x l1 IH]; intros s; simpl; [reflexivity |].
  unfold bindIO. destruct (body x s) as [[[]|e] s0]; [apply IH | reflexivity].
Qed.

Lemma import_group_refused {W : Type} (env : Env W) (v : vision) (pw : string)
    (dry : bool) (g : pyval) (s : state W) (name : string) (assets : pyval)
    (w' : W) :
  cc_group_name_of g = Ok name ->
  Py.getitem g "Assets" = Ok assets ->
  vision_create_cc_group env v name assets dry (world s) = (Ok false, w') ->
  import_group env v pw dry g s =
  (Ok tt, {| world := w';
             calls := calls s ++ skipped_group_calls v name assets dry |}).
Proof.
  intros Hname Hassets Hcreate.
  unfold import_group, bindIO, lift, call, log_error, emit.
  rewrite Hname, Hassets, Hcreate. simpl.
  rewrite <- !app_assoc. reflexivity.
Qed.

(** C4. In a run of [import_mssp_config] whose login succeeded, when the
    group-creation call of an entry returns a false value, the run logs the
    failure, makes no user-creation call for that entry, and goes on with
    the entries after it, in document order, exactly as the loop would run
    on them alone. *)
Theorem group_failure_is_isolated {W : Type} (env : Env W) (v : vision)
    (pw : string) (dry : bool) (before : list pyval) (g : pyval)
    (after : list pyval) (s s1 : state W) (w0 w2 : W) (name : string)
    (assets : pyval) :
  vision_login env v (world s) = (Ok true, w0) ->
  import_groups env v pw dry before
    {| world := w0; calls := calls s ++ [VisionLogin v] |} = (Ok tt, s1) ->
  cc_group_name_of g = Ok name ->
  Py.getitem g "Assets" = Ok assets ->
  vision_create_cc_group env v name assets dry (world s1) = (Ok false, w2) ->
  import_mssp_config env v (PList (before ++ g :: after)) pw dry s =
  import_groups env v pw dry after
    {| world := w2;
       calls := calls s1 ++ skipped_group_calls v name assets dry |}.
Proof.
  intros Hlogin Hbefore Hname Hassets Hcreate.
  unfold import_mssp_config. unfold bindIO at 1. unfold call at 1.
  rewrite Hlogin. unfold bindIO at 1. unfold lift at 1. simpl Py.iter.
  unfold import_groups in *. rewrite for_io_app, Hbefore.
  simpl for_io. unfold bindIO at 1.
  rewrite (import_group_refused env v pw dry g s1 name assets w2
             Hname Hassets Hcreate).
  reflexivity.
Qed.

(** C4, run on the scenario of the specification: the group of Acme is
    refused, its user is skipped, and Globex, which follows it, gets its
    group and its user. *)
Lemma group_failure_is_isolated_example :
  import_mssp_config Demo.env Demo.controller (PList [acme_entry; globex_entry])
    default_password true Demo.start
  = (Ok tt,
     {| world := [];
        calls :=
          [ VisionLogin Demo.controller;
            CreateGroup Demo.controller "Acme_oid1" (PList [PStr "p1, p2"]) true;
            Logged "ERROR" "couldn't create group Acme_oid1, skipping it completly.";
            Stdout ("couldn't create group Acme_oid1, skipping it completly. "
                    +:+ newline +:+ " please check the logs and try again.");
            CreateGroup Demo.controller "Globex_oid3" (PList []) true;
            AddUser Demo.controller (PDict [("Username", PStr "carol")])
              "Globex_oid3" "P@ssw0rd1!" true ] |}).
Proof.
  exact (eq_trans
           (group_failure_is_isolated Demo.env Demo.controller default_password
              true [] acme_entry [globex_entry] Demo.start
              {| world := []; calls := [VisionLogin Demo.controller] |} [] []
              "Acme_oid1" (PList [PStr "p1, p2"])
              eq_refl eq_refl eq_refl eq_refl eq_refl)
           eq_refl).
Defined.

(** ** Export *)

Lemma bindIO_ok {W A B : Type} (m : IO W A) (k : A -> IO W B) (s s' : state W)
    (b : B) :
  bindIO m k s = (Ok b, s') ->
  exists a s1, m s = (Ok a, s1) /\ k a s1 = (Ok b, s').
Proof.
  unfold bindIO. destruct (m s) as [[a|e] s1]; [eauto | discriminate].
Qed.

Lemma lift_ok {W A : Type} (r : result A) (s s' : state W) (a : A) :
  lift r s = (Ok a, s') -> r = Ok a /\ s' = s.
Proof. unfold lift. intros [= -> ->]. auto. Qed.

Lemma ret_ok {W A : Type} (x a : A) (s s' : state W) :
  ret x s = (Ok a, s') -> a = x /\ s' = s.
Proof. unfold ret. intros [= -> ->]. auto. Qed.

Lemma bindR_inv {A B : Type} (m : result A) (k : A -> result B) (b : B) :
  bindR m k = Ok b -> exists a, m = Ok a /\ k a = Ok b.
Proof. destruct m as [a|e]; simpl; [eauto | discriminate]. Qed.

Lemma get_ok_inv (v : pyval) (k : string) (dflt out : pyval) :
  Py.get v k dflt = Ok out ->
  exists d, v = PDict d /\ out = default dflt (Py.dict_lookup d k).
Proof.
  destruct v; try discriminate. rewrite get_dict. intros [= <-]. eauto.
Qed.

Lemma for_each_append_length {A : Type} (f : A -> result pyval) (l : list A)
    (acc out : list pyval) :
  for_each (fun acc x => y <- f x ;; Ok (acc ++ [y])) l acc = Ok out ->
  length out = length acc + length l.
Proof.
  revert acc. induction l as [|x l IH]; simpl; intros acc.
  - intros [= <-]. lia.
  - destruct (f x) as [y|e]; simpl; [| discriminate].
    intros H. apply IH in H. rewrite H, length_app. simpl. lia.
Qed.

Lemma build_users_info_length (users : list pyval) (out : pyval) :
  build_users_info (PList users) = Ok out ->
  exists infos, out = PList infos /\ length infos = length users.
Proof.
  unfold build_users_info. simpl Py.iter. step.
  intros H. apply bindR_inv in H as (infos & Hloop & [= <-]).
  exists infos. split; [reflexivity |].
  apply for_each_append_length in Hloop. exact Hloop.
Qed.

Lemma account_id_read (d : list (string * pyval)) (id account_id : pyval) :
  Py.get (PDict d) "_id" (PDict []) = Ok id ->
  Py.get id "_oid" (PStr "N/A") = Ok account_id ->
  account_id = account_id_of d.
Proof.
  rewrite get_dict. intros [= <-] H. unfold account_id_of.
  destruct (Py.dict_lookup d "_id") as [[| | | | | |i]|]; try discriminate;
    simpl in H; [destruct (Py.dict_lookup i "_oid"); simpl |]; congruence.
Qed.

Lemma export_account_ok {W : Type} (env : Env W) (session_id mssp_address : string)
    (acc : list pyval) (account : pyval) (s s' : state W) (out : list pyval) :
  export_account env session_id mssp_address acc account s = (Ok out, s') ->
  exists entry,
    out = acc ++ [entry] /\
    exported_as env session_id mssp_address account entry.
Proof.
  unfold export_account. intros H.
  apply bindIO_ok in H as (id & s0 & Hid & H). apply lift_ok in Hid as [Hid ->].
  apply bindIO_ok in H as (aid & s0 & Haid & H). apply lift_ok in Haid as [Haid ->].
  apply bindIO_ok in H as (name & s0 & Hn & H). apply lift_ok in Hn as [Hn ->].
  apply bindIO_ok in H as (ty & s0 & Hty & H). apply lift_ok in Hty as [Hty ->].
  apply bindIO_ok in H as (assets & s1 & Hassets & H).
  apply bindIO_ok in H as (users_reply & s2 & Husers & H).
  apply bindIO_ok in H as (details & s3 & Hdet & H). apply lift_ok in Hdet as [Hdet ->].
  apply ret_ok in H as [-> ->].
  destruct (get_ok_inv _ _ _ _ Hn) as (d & -> & ->).
  rewrite get_dict in Hty. injection Hty as <-.
  rewrite (account_id_read d id aid Hid Haid) in *.
  unfold account_details_of in Hdet.
  apply bindR_inv in Hdet as (users & Hkept & Hdet).
  apply bindR_inv in Hdet as (ca & Hca & Hdet).
  apply bindR_inv in Hdet as (cu & Hcu & Hdet).
  apply bindR_inv in Hdet as (sv & _ & [= <-]).
  assert (exists kept, users = PList kept) as [kept ->].
  { unfold filter_users_by_role in Hkept.
    apply bindR_inv in Hkept as (? & _ & Hkept).
    apply bindR_inv in Hkept as (kept & _ & [= <-]). eauto. }
  assert (exists lines, ca = PList lines) as [lines ->].
  { unfold build_assets_info in Hca.
    apply bindR_inv in Hca as (? & _ & Hca).
    apply bindR_inv in Hca as (lines & _ & [= <-]). eauto. }
  destruct (build_users_info_length kept cu Hcu) as (infos & -> & Hlen).
  eexists. split; [reflexivity |].
  exists d, assets, users_reply, kept, lines, infos, s, s1, s2.
  repeat split; assumption.
Qed.

Lemma fold_export_ok {W : Type} (env : Env W) (session_id mssp_address : string)
    (accounts acc out : list pyval) (s s' : state W) :
  fold_io (export_account env session_id mssp_address) accounts acc s = (Ok out, s') ->
  exists entries,
    out = acc ++ entries /\
    Forall2 (exported_as env session_id mssp_address) accounts entries.
Proof.
  revert acc s. induction accounts as [|a accounts IH]; intros acc s; simpl.
  - intros H. apply ret_ok in H as [-> _]. exists []. rewrite app_nil_r. auto.
  - intros H. apply bindIO_ok in H as (acc' & s1 & Ha & H).
    apply export_account_ok in Ha as (entry & -> & Hentry).
    apply IH in H as (entries & -> & Hrest).
    exists (entry :: entries). rewrite <- app_assoc. split; [reflexivity |].
    constructor; assumption.
Qed.

(** *** Runs against a well-behaved portal return *)

Lemma well_typed_is_dict (l : list pyval) :
  forallb well_typed_record l = true -> forallb is_dict l = true.
Proof.
  induction l as [|x l IH]; simpl; [reflexivity |].
  intros H. apply andb_prop in H as [Hx Hl]. rewrite (IH Hl).
  destruct x; try discriminate. reflexivity.
Qed.

Lemma reply_of_well_typed (r : response) :
  well_typed_response r = true ->
  exists l, reply_of r = Ok (PList l) /\ forallb well_typed_record l = true.
Proof.
  unfold well_typed_response, reply_of.
  destruct (status_code r =? 200)%Z; [| exists []; auto].
  destruct (json r) as [[| | | | | |body]|]; try discriminate.
  step. rewrite get_dict.
  destruct (Py.dict_lookup body "reply") as [[| | | | |l|]|]; try discriminate;
    simpl; eauto.
Qed.

Lemma listing_call_returns {W : Type} (env : Env W) (url cookie : string)
    (s : state W) :
  well_behaved env ->
  exists l s',
    (response <~ call (HttpGet url cookie) (requests_get env url cookie) ;;
     lift (reply_of response)) s = (Ok (PList l), s') /\
    forallb well_typed_record l = true.
Proof.
  intros Hwb. destruct (Hwb url cookie (world s)) as (r & w' & Hget & Hr).
  destruct (reply_of_well_typed r Hr) as (l & Hl & Hwt).
  exists l. eexists. unfold bindIO, call, lift. rewrite Hget, Hl. eauto.
Qed.

Lemma for_each_returns {A B : Type} (p : A -> bool) (body : B -> A -> result B)
    (l : list A) :
  (forall x acc, p x = true -> exists acc', body acc x = Ok acc') ->
  forallb p l = true ->
  forall acc, exists out, for_each body l acc = Ok out.
Proof.
  intros Hbody. induction l as [|x l IH]; simpl; intros H acc; [eauto |].
  apply andb_prop in H as [Hx Hl].
  destruct (Hbody x acc Hx) as [acc' ->]. step. apply IH, Hl.
Qed.

Lemma build_assets_info_returns (l : list pyval) :
  forallb well_typed_record l = true ->
  exists out, build_assets_info (PList l) = Ok out.
Proof.
  intros H. unfold build_assets_info. simpl Py.iter. step.
  edestruct (for_each_returns well_typed_record
               (fun assets_info_list asset =>
                  policies <- Py.get asset "policies" (PList []) ;;
                  line <- Py.join ", " policies ;;
                  Ok (assets_info_list ++ [PStr line])) l) as [out ->];
    [| exact H | step; eauto].
  intros x acc Hx. destruct x as [| | | | | |d]; try discriminate.
  simpl in Hx. rewrite get_dict. step.
  apply andb_prop in Hx as [Hx _]. apply andb_prop in Hx as [_ Hp].
  destruct (Py.dict_lookup d "policies") as [[| | | | |ps|]|]; try discriminate;
    simpl default; [rewrite (join_strs _ _ Hp); step | simpl]; eauto.
Qed.

Lemma build_users_info_returns (l : list pyval) :
  forallb well_typed_record l = true ->
  exists out, build_users_info (PList l) = Ok out.
Proof.
  intros H. unfold build_users_info. simpl Py.iter. step.
  edestruct (for_each_returns well_typed_record
               (fun users_info user =>
                  user_info <- user_info_of user ;;
                  Ok (users_info ++ [user_info])) l) as [out ->];
    [| exact H | step; eauto].
  intros x acc Hx. destruct x as [| | | | | |d]; try discriminate.
  simpl in Hx. apply andb_prop in Hx as [_ Hu].
  destruct (user_info_of_well_formed d Hu) as (? & _ & ->). step. eauto.
Qed.

Lemma build_services_info_returns (d : list (string * pyval)) :
  well_typed_record (PDict d) = true ->
  exists out, build_services_info (PDict d) = Ok out.
Proof.
  simpl. intros H. apply andb_prop in H as [H _]. apply andb_prop in H as [H _].
  apply andb_prop in H as [_ Hs].
  unfold build_services_info. rewrite get_dict. step.
  assert (exists items, Py.iter (default (PList []) (Py.dict_lookup d "services"))
                        = Ok items /\ forallb is_dict items = true)
    as (items & -> & Hitems).
  { destruct (Py.dict_lookup d "services") as [[| | | | |l|]|];
      try discriminate; simpl; eauto. }
  step. apply (for_each_returns is_dict); [| exact Hitems].
  intros x acc Hx. destruct x; try discriminate.
  rewrite !get_dict. repeat step. eauto.
Qed.

Lemma export_account_returns {W : Type} (env : Env W)
    (session_id mssp_address : string) (acc : list pyval) (account : pyval)
    (s : state W) :
  well_behaved env ->
  well_typed_record account = true ->
  exists out s', export_account env session_id mssp_address acc account s
                 = (Ok out, s').
Proof.
  intros Hwb Hacc. destruct account as [| | | | | |d]; try discriminate.
  pose proof Hacc as Ht. simpl in Ht.
  apply andb_prop in Ht as [Ht _]. apply andb_prop in Ht as [Ht _].
  apply andb_prop in Ht as [Hid _].
  assert (exists aid, (id <- Py.get (PDict d) "_id" (PDict []) ;;
                       Py.get id "_oid" (PStr "N/A")) = Ok aid) as [aid Haid].
  { rewrite get_dict. step.
    destruct (Py.dict_lookup d "_id") as [[| | | | | |i]|]; try discriminate;
      simpl default; rewrite get_dict; eauto. }
  apply bindR_inv in Haid as (id & Hid1 & Hid2).
  unfold export_account.
  unfold bindIO at 1, lift at 1. rewrite Hid1.
  unfold bindIO at 1, lift at 1. rewrite Hid2.
  unfold bindIO at 1, lift at 1. rewrite get_dict.
  unfold bindIO at 1, lift at 1. rewrite get_dict.
  destruct (listing_call_returns env
              (("https://" +:+ mssp_address +:+ "/api/assets/") +:+
               "?type=account&id=" +:+ fstr env aid)
              ("sessionid=" +:+ session_id) s Hwb)
    as (assets & s1 & Hassets & Hwa).
  unfold bindIO at 1. unfold fetch_assets_for_account at 1. rewrite Hassets.
  destruct (listing_call_returns env
              (("https://" +:+ mssp_address +:+ "/api/users/") +:+
               "?type=account&id=" +:+ fstr env aid)
              ("sessionid=" +:+ session_id) s1 Hwb)
    as (users & s2 & Husers & Hwu).
  unfold bindIO at 1. unfold fetch_users_for_account at 1. rewrite Husers.
  unfold account_details_of, filter_users_by_role. simpl Py.iter. step.
  rewrite (filterR_dicts "role" "user" users (well_typed_is_dict users Hwu)).
  repeat step.
  destruct (build_assets_info_returns assets Hwa) as [ca ->]. step.
  destruct (build_users_info_returns (List.filter (field_is "role" "user") users))
    as [cu ->]; [apply filter_keeps_forallb, Hwu |]. step.
  destruct (build_services_info_returns d Hacc) as [sv ->]. step.
  unfold bindIO, lift, ret. eauto.
Qed.

Lemma fold_export_returns {W : Type} (env : Env W)
    (session_id mssp_address : string) (accounts : list pyval) :
  well_behaved env ->
  forallb well_typed_record accounts = true ->
  forall acc s, exists out s',
    fold_io (export_account env session_id mssp_address) accounts acc s
    = (Ok out, s').
Proof.
  intros Hwb. induction accounts as [|a accounts IH]; simpl; intros H acc s.
  - unfold ret. eauto.
  - apply andb_prop in H as [Ha Hl].
    destruct (export_account_returns env session_id mssp_address acc a s Hwb Ha)
      as (acc' & s1 & Hstep).
    unfold bindIO. rewrite Hstep. apply IH, Hl.
Qed.

Lemma build_structured_export_returns {W : Type} (env : Env W)
    (session_id mssp_address : string) (s : state W) :
  well_behaved env ->
  exists doc s', build_structured_export env session_id mssp_address s
                 = (Ok doc, s').
Proof.
  intros Hwb. unfold build_structured_export.
  destruct (listing_call_returns env
              ("https://" +:+ mssp_address +:+ "/api/accounts/")
              ("sessionid=" +:+ session_id) s Hwb)
    as (listing & s0 & Hlisting & Hwl).
  unfold bindIO at 1. unfold fetch_all_accounts at 1. rewrite Hlisting.
  unfold filter_accounts_by_type. simpl Py.iter. step.
  rewrite (filterR_dicts "_type" "CustomerAccount" listing
             (well_typed_is_dict listing Hwl)).
  step. unfold bindIO at 1, lift at 1. unfold bindIO at 1, lift at 1.
  simpl Py.iter.
  destruct (fold_export_returns env session_id mssp_address
              (List.filter (field_is "_type" "CustomerAccount") listing) Hwb
              (filter_keeps_forallb _ _ _ Hwl) [] s0) as (out & s1 & Hfold).
  unfold bindIO, ret. rewrite Hfold. eauto.
Qed.

Lemma export_entries {W : Type} (env : Env W)
    (session_id mssp_address : string) (s s' : state W) (doc : pyval) :
  build_structured_export env session_id mssp_address s = (Ok doc, s') ->
  exists (listing : pyval) (s0 : state W) (accounts entries : list pyval),
    fetch_all_accounts env session_id mssp_address s = (Ok listing, s0) /\
    filter_accounts_by_type listing "CustomerAccount" = Ok (PList accounts) /\
    doc = PList entries /\
    Forall2 (exported_as env session_id mssp_address) accounts entries /\
    length entries = length accounts.
Proof.
  unfold build_structured_export. intros H.
  apply bindIO_ok in H as (listing & s0 & Hlisting & H).
  apply bindIO_ok in H as (filtered & s1 & Hf & H). apply lift_ok in Hf as [Hf ->].
  apply bindIO_ok in H as (items & s1 & Hitems & H).
  apply lift_ok in Hitems as [Hitems ->].
  apply bindIO_ok in H as (out & s1 & Hfold & H). apply ret_ok in H as [-> ->].
  assert (filtered = PList items) as ->.
  { unfold filter_accounts_by_type in Hf.
    apply bindR_inv in Hf as (? & _ & Hf).
    apply bindR_inv in Hf as (kept & _ & [= <-]).
    simpl in Hitems. congruence. }
  apply fold_export_ok in Hfold as (entries & -> & Hall).
  exists listing, s0, items, entries. repeat split; try assumption.
  symmetry. exact (Forall2_length _ _ _ Hall).
Qed.

(** C6. [build_structured_export] returns against every well-behaved
    portal, and whenever it returns a document, the document is a list with
    exactly one entry for each account of the source listing that passes
    the CustomerAccount filter, in the order of the listing; each entry
    carries one user info per listed user whose role is exactly user, so an
    account with no such user has an entry with an empty Users list. *)
Theorem export_one_entry_per_account {W : Type} (env : Env W)
    (session_id mssp_address : string) (s : state W) :
  (forall doc s',
     build_structured_export env session_id mssp_address s = (Ok doc, s') ->
     exists (listing : pyval) (s0 : state W) (accounts entries : list pyval),
       fetch_all_accounts env session_id mssp_address s = (Ok listing, s0) /\
       filter_accounts_by_type listing "CustomerAccount" = Ok (PList accounts) /\
       doc = PList entries /\
       Forall2 (exported_as env session_id mssp_address) accounts entries /\
       length entries = length accounts) /\
  (well_behaved env ->
   exists doc s',
     build_structured_export env session_id mssp_address s = (Ok doc, s')).
Proof.
  split.
  - intros doc s'. apply export_entries.
  - apply build_structured_export_returns.
Qed.

(** The reseller is filtered out; the account whose only user is an
    operator keeps its entry, with no users. *)
Example build_structured_export_demo :
  fst (build_structured_export Demo.env "s3cr3t" "mssp.example" Demo.start)
  = Ok exported.
Proof. vm_compute. reflexivity. Qed.

Lemma demo_portal_well_behaved : well_behaved Demo.env.
Proof.
  intros url cookie w. exists (Demo.serve_get url cookie), w.
  split; [reflexivity |]. unfold Demo.serve_get.
  repeat match goal with
         | |- context [if ?b then _ else _] => destruct b
         end; reflexivity.
Qed.

(** C6, run against the demonstration portal. *)
Lemma export_one_entry_per_account_example :
  (exists (listing : pyval) (s0 : state Demo.files) (accounts entries : list pyval),
     fetch_all_accounts Demo.env "s3cr3t" "mssp.example" Demo.start
       = (Ok listing, s0) /\
     filter_accounts_by_type listing "CustomerAccount" = Ok (PList accounts) /\
     exported = PList entries /\
     Forall2 (exported_as Demo.env "s3cr3t" "mssp.example") accounts entries /\
     length entries = length accounts) /\
  (exists doc s',
     build_structured_export Demo.env "s3cr3t" "mssp.example" Demo.start
       = (Ok doc, s')).
Proof.
  pose proof (export_one_entry_per_account Demo.env "s3cr3t" "mssp.example"
                Demo.start) as [Hentries Hreturns].
  split.
  - exact (Hentries exported _ eq_refl).
  - exact (Hreturns demo_portal_well_behaved).
Defined.

(** ** The main flow in live mode *)

Lemma login_result_given {W : Type} (env : Env W) (url username password : string)
    (s s1 : state W) (sid : string) :
  login env url username password s = (Ok (Some sid), s1) ->
  given (Some sid) = true.
Proof.
  unfold login.
  destruct (call _ _ s) as [[r|e] s0].
  - destruct (status_code r =? 200)%Z.
    + unfold bindIO, log_info, emit, ret.
      destruct (given (snd <$> List.find _ (cookies r))) eqn:Hg.
      * intros [= H _]. rewrite H in Hg. exact Hg.
      * discriminate.
    + unfold bindIO, log_info, emit, ret. discriminate.
  - destruct e; discriminate.
Qed.

Lemma snapshot_only_no_import {W : Type} (env : Env W) (a : args) (doc : pyval)
    (s : state W) :
  List.filter import_call (calls (snd (snapshot_only env a doc s)))
  = List.filter import_call (calls s).
Proof.
  unfold snapshot_only, save_data_to_json_file, bindIO, call, log_info, emit, ret.
  destruct (write_json env _ doc (world s)) as [[[]|e] w1]; simpl.
  - destruct (vision_new env (controller_of a) w1) as [[[]|e] w2]; simpl;
      rewrite !List.filter_app; simpl; rewrite !app_nil_r; reflexivity.
  - rewrite List.filter_app. simpl. apply app_nil_r.
Qed.

(** C5 as amended. In live mode with all credentials given, a successful
    source login and an export that returned: without [--export-file] the
    rest of the run is the construction of the client followed by
    [import_mssp_config] on the exported document; with [--export-file] the
    rest of the run writes the snapshot, logs it, constructs the client and
    stops, making no call of the import phase. *)
Theorem live_import_unless_snapshot {W : Type} (env : Env W) (a : args)
    (s s1 s2 : state W) (sid : string) (doc : pyval) :
  live_with_credentials a = true ->
  source_login env a s = (Ok (Some sid), s1) ->
  build_structured_export env sid (arg_str (mssp_address a)) s1 = (Ok doc, s2) ->
  (given (export_file a) = false ->
   main env a s = import_exported env a doc s2) /\
  (given (export_file a) = true ->
   main env a s = snapshot_only env a doc s2 /\
   List.filter import_call (calls (snd (main env a s)))
   = List.filter import_call (calls s2)).
Proof.
  unfold live_with_credentials, source_login. intros Hlive Hlogin Hexport.
  apply andb_prop in Hlive as [Hlive Hcc]. apply andb_prop in Hlive as [Hmode Hsrc].
  pose proof (login_result_given _ _ _ _ _ _ _ Hlogin) as Hsid.
  assert (Hmain : main env a s =
                  (if given (export_file a) then snapshot_only env a doc s2
                   else import_exported env a doc s2)).
  { unfold main. rewrite Hmode, Hsrc, Hcc. cbv iota. simpl negb. cbv iota.
    unfold bindIO at 1. unfold bindIO at 1. rewrite Hlogin. rewrite Hsid.
    unfold bindIO at 1. simpl arg_str at 1. rewrite Hexport.
    unfold snapshot_only, import_exported, password_of, controller_of.
    destruct (given (export_file a)); simpl negb; cbv iota.
    - unfold bindIO.
      destruct (save_data_to_json_file env doc (arg_str (export_file a)) s2)
        as [[[]|e] s3]; reflexivity.
    - unfold bindIO, ret.
      destruct (given (initial_user_password a)); reflexivity. }
  split; intros Hfile; rewrite Hfile in Hmain; [exact Hmain |].
  split; [exact Hmain |]. rewrite Hmain. apply snapshot_only_no_import.
Qed.

(** C5 as stated fails: live mode, a successful source login, all
    destination credentials and [--export-file export].  The run ends
    normally with the three-entry document written to the snapshot file, and
    makes no call of the import phase: no destination login, no group and
    no user creation. *)
Lemma snapshot_run_makes_no_import :
  live_with_credentials Demo.live_args_with_snapshot = true /\
  fst (source_login Demo.env Demo.live_args_with_snapshot Demo.start)
    = Ok (Some "s3cr3t") /\
  fst (main Demo.env Demo.live_args_with_snapshot Demo.start) = Ok tt /\
  world (snd (main Demo.env Demo.live_args_with_snapshot Demo.start))
    = [("/opt/migration/config/export_2024-02-22_16-46-54.json", exported)] /\
  List.filter import_call
    (calls (snd (main Demo.env Demo.live_args_with_snapshot Demo.start))) = [] /\
  ~ In (VisionLogin Demo.controller)
       (calls (snd (main Demo.env Demo.live_args_with_snapshot Demo.start))).
Proof.
  repeat split; try (vm_compute; reflexivity).
  vm_compute. intros H.
  repeat match goal with
         | H : _ \/ _ |- _ => destruct H as [H|H]; [discriminate H |]
         end.
  exact H.
Qed.

(** C5 as amended, run without and with the snapshot option. *)
Lemma live_import_unless_snapshot_example :
  main Demo.env Demo.live_args Demo.start
    = import_exported Demo.env Demo.live_args exported after_export /\
  List.filter import_call
    (calls (snd (main Demo.env Demo.live_args_with_snapshot Demo.start)))
    = List.filter import_call (calls after_export).
Proof.
  split.
  - exact (proj1 (live_import_unless_snapshot Demo.env Demo.live_args
                    Demo.start after_login after_export "s3cr3t" exported
                    eq_refl eq_refl eq_refl)
                 eq_refl).
  - exact (proj2 (proj2 (live_import_unless_snapshot Demo.env
                           Demo.live_args_with_snapshot
                           Demo.start after_login after_export "s3cr3t" exported
                           eq_refl eq_refl eq_refl)
                        eq_refl)).
Defined.

(** Without the snapshot option the import does run on the export. *)
Example live_run_imports :
  List.filter import_call (calls (snd (main Demo.env Demo.live_args Demo.start)))
  = [ VisionLogin Demo.controller;
      CreateGroup Demo.controller "Acme_oid1" (PList [PStr "p1, p2"]) false;
      CreateGroup Demo.controller "VeryLongCustomerNameExceedingLi" (PList []) false;
      CreateGroup Demo.controller "Globex_oid3" (PList []) false;
      AddUser Demo.controller
        (PDict [ ("Name", PNone);
                 ("Username", PStr "N/A");
                 ("Role", PStr "user");
                 ("Email", PStr "carol@globex.example");
                 ("Auth Type", PNone);
                 ("Account OID", PStr "N/A");
                 ("Role (Current)", PStr "None");
                 ("New Role", PNone);
                 ("Allowed IP Address", PStr "");
                 ("Notes", PStr "") ])
        "Globex_oid3" "P@ssw0rd1!" false ].
Proof. vm_compute. reflexivity. Qed.

(** * Further properties *)

(** ** Which calls each phase can make *)

Lemma only_emits_ret {W A : Type} (P : event -> bool) (a : A) :
  only_emits P (@ret W A a).
Proof. intros s. exists []. simpl. rewrite app_nil_r. auto. Qed.

Lemma only_emits_raise {W A : Type} (P : event -> bool) (e : exn) :
  only_emits P (@raise W A e).
Proof. intros s. exists []. simpl. rewrite app_nil_r. auto. Qed.

Lemma only_emits_lift {W A : Type} (P : event -> bool) (r : result A) :
  only_emits P (@lift W A r).
Proof. intros s. exists []. simpl. rewrite app_nil_r. auto. Qed.

Lemma only_emits_emit {W : Type} (P : event -> bool) (e : event) :
  P e = true -> only_emits P (@emit W e).
Proof. intros He s. exists [e]. simpl. rewrite He. auto. Qed.

Lemma only_emits_call {W A : Type} (P : event -> bool) (e : event)
    (op : W -> result A * W) :
  P e = true -> only_emits P (call e op).
Proof.
  intros He s. exists [e]. unfold call. destruct (op (world s)). simpl.
  rewrite He. auto.
Qed.

Lemma only_emits_bind {W A B : Type} (P : event -> bool) (m : IO W A)
    (k : A -> IO W B) :
  only_emits P m -> (forall a, only_emits P (k a)) -> only_emits P (bindIO m k).
Proof.
  intros Hm Hk s. unfold bindIO. destruct (Hm s) as (r1 & H1 & P1).
  destruct (m s) as [[a|e] s1]; simpl in *.
  - destruct (Hk a s1) as (r2 & H2 & P2). exists (r1 ++ r2).
    rewrite H2, H1, app_assoc, forallb_app, P1, P2. auto.
  - exists r1. auto.
Qed.

Lemma only_emits_for_io {W A : Type} (P : event -> bool) (body : A -> IO W unit)
    (l : list A) :
  (forall x, only_emits P (body x)) -> only_emits P (for_io body l).
Proof.
  intros Hbody. induction l as [|x l IH]; simpl.
  - apply only_emits_ret.
  - apply only_emits_bind; [apply Hbody | intros _; exact IH].
Qed.

Lemma only_emits_fold_io {W A B : Type} (P : event -> bool)
    (body : B -> A -> IO W B) (l : list A) (acc : B) :
  (forall acc x, only_emits P (body acc x)) -> only_emits P (fold_io body l acc).
Proof.
  intros Hbody. revert acc. induction l as [|x l IH]; simpl; intros acc.
  - apply only_emits_ret.
  - apply only_emits_bind; [apply Hbody | intros acc'; apply IH].
Qed.

Lemma only_emits_weaken {W A : Type} (P Q : event -> bool) (m : IO W A) :
  (forall e, P e = true -> Q e = true) -> only_emits P m -> only_emits Q m.
Proof.
  intros HPQ Hm s. destruct (Hm s) as (rest & H & HP). exists rest.
  split; [exact H |]. rewrite forallb_forall in *. auto.
Qed.

Lemma only_emits_if {W A : Type} (P : event -> bool) (b : bool) (m1 m2 : IO W A) :
  only_emits P m1 -> only_emits P m2 -> only_emits P (if b then m1 else m2).
Proof. destruct b; auto. Qed.

Ltac emits :=
  repeat first
    [ apply only_emits_ret
    | apply only_emits_raise
    | apply only_emits_lift
    | apply only_emits_emit; reflexivity
    | apply only_emits_call; reflexivity
    | apply only_emits_if
    | apply only_emits_for_io; intros ?
    | apply only_emits_fold_io; intros ? ?
    | apply only_emits_bind; [| intros ?] ].

Lemma listing_only_gets {W : Type} (env : Env W) (url cookie : string) :
  only_emits is_get
    (response <~ call (HttpGet url cookie) (requests_get env url cookie) ;;
     lift (reply_of response)).
Proof. emits. Qed.

Lemma export_only_gets {W : Type} (env : Env W) (session_id mssp_address : string) :
  only_emits is_get (build_structured_export env session_id mssp_address).
Proof.
  unfold build_structured_export, export_account, fetch_all_accounts,
    fetch_assets_for_account, fetch_users_for_account. emits.
Qed.

Lemma login_only_posts {W : Type} (env : Env W) (url username password : string) :
  only_emits is_post_or_note (login env url username password).
Proof.
  intros s. unfold login, call.
  destruct (requests_post env url _ (world s)) as [[r|e] w'].
  - destruct (status_code r =? 200)%Z.
    + unfold bindIO, log_info, emit, ret.
      destruct (given _); simpl; eexists; rewrite <- !app_assoc;
        (split; [reflexivity | reflexivity]).
    + unfold bindIO, log_info, emit, ret. simpl. eexists.
      rewrite <- !app_assoc. split; reflexivity.
  - destruct e; simpl;
      try (exists [HttpPost url ("u=" +:+ username +:+ "&p=" +:+ password)];
           split; reflexivity).
    unfold bindIO, log_info, emit, ret. simpl. eexists.
    rewrite <- !app_assoc. split; reflexivity.
Qed.

Lemma import_only_destination {W : Type} (env : Env W) (v : vision)
    (config : pyval) (pw : string) (dry : bool) :
  only_emits (fun e => import_call e || is_note e)
    (import_mssp_config env v config pw dry).
Proof.
  unfold import_mssp_config, import_groups, import_group, add_users, log_error.
  emits.
Qed.

Lemma save_only_writes {W : Type} (env : Env W) (data : pyval) (base : string) :
  only_emits is_file_write (save_data_to_json_file env data base).
Proof. intros s. unfold save_data_to_json_file. apply only_emits_call. reflexivity. Qed.

Lemma load_only_reads {W : Type} (env : Env W) (filename : string) :
  only_emits is_file_read (load_config env filename).
Proof. apply only_emits_call. reflexivity. Qed.

(** Reduce [only_emits Q] of a phase to the class of calls proved for it. *)
Ltac phase :=
  eapply only_emits_weaken;
  [| first [ apply login_only_posts
           | apply export_only_gets
           | apply import_only_destination
           | apply save_only_writes
           | apply load_only_reads ] ];
  (let e := fresh "e" in
   intros e; destruct e; simpl; intros; first [reflexivity | discriminate]).

Ltac main_emits :=
  unfold log_info;
  repeat first
    [ apply only_emits_ret
    | apply only_emits_raise
    | apply only_emits_emit; reflexivity
    | apply only_emits_call; reflexivity
    | phase
    | apply only_emits_if
    | apply only_emits_bind; [| intros ?] ].

(** X1. What guards each phase of [__main__]: with [--import-from-file] no
    request goes to the source portal; unless the destination address,
    username and password are all given (and non-empty) nothing at all is
    done with the destination client; with [--export-file] no call of the
    import phase is made, in replay mode as in live mode; a snapshot file is
    written only in live mode with [--export-file]; a file is read only in
    replay mode.  Each holds whether the run ends normally or raises. *)
Theorem main_phase_guards {W : Type} (env : Env W) (a : args) :
  (import_from_file a = true ->
   only_emits (fun e => negb (source_call e)) (main env a)) /\
  (destination_credentials a = false ->
   only_emits (fun e => negb (destination_call e)) (main env a)) /\
  (given (export_file a) = true ->
   only_emits (fun e => negb (import_call e)) (main env a)) /\
  (import_from_file a = true \/ given (export_file a) = false ->
   only_emits (fun e => negb (is_file_write e)) (main env a)) /\
  (import_from_file a = false ->
   only_emits (fun e => negb (is_file_read e)) (main env a)).
Proof.
  unfold destination_credentials. repeat split.
  - intros H. unfold main. rewrite H. simpl negb. cbv iota. main_emits.
  - intros H. unfold main. rewrite H. main_emits.
  - intros H. unfold main. rewrite H. simpl negb. cbv iota. main_emits.
  - intros [H|H]; unfold main; rewrite H; simpl negb; cbv iota; main_emits.
  - intros H. unfold main. rewrite H. simpl negb. cbv iota. main_emits.
Qed.

(** X2. The three ways [__main__] stops before any export or import.  In
    replay mode without a (non-empty) [--config-file] it logs one line and
    exits with code 1, having made no call at all.  In live mode with a
    source address, username or password missing or empty it exits with
    code 2, the state untouched.  In live mode, when [login] returns no
    session, it logs one more line and exits with code 1: the only request
    sent is the login POST, and nothing is done with the destination. *)
Theorem main_stops_early {W : Type} (env : Env W) (a : args) (s : state W) :
  (import_from_file a = true -> given (config_file a) = false ->
   main env a s =
   (Raise (SystemExit 1),
    {| world := world s;
       calls := calls s ++
         [Logged "INFO" "Config file path is required when importing from file."] |})) /\
  (import_from_file a = false -> source_credentials a = false ->
   main env a s = (Raise (SystemExit 2), s)) /\
  (import_from_file a = false -> source_credentials a = true ->
   forall s1, source_login env a s = (Ok None, s1) ->
     main env a s =
     (Raise (SystemExit 1),
      {| world := world s1;
         calls := calls s1 ++ [Logged "INFO" "Failed to log in to MSSP."] |}) /\
     exists rest,
       calls s1 = calls s ++ rest /\
       forallb (fun e => negb (is_get e) && negb (destination_call e)) rest = true).
Proof.
  unfold source_credentials, source_login. split; [| split].
  - intros Hmode Hfile. unfold main. rewrite Hmode, Hfile. reflexivity.
  - intros Hmode Hsrc. unfold main. rewrite Hmode, Hsrc. reflexivity.
  - intros Hmode Hsrc s1 Hlogin. split.
    + unfold main. rewrite Hmode, Hsrc. simpl negb. cbv iota.
      unfold bindIO at 1. unfold bindIO at 1. rewrite Hlogin. reflexivity.
    + destruct (login_only_posts env
                  ("https://" +:+ arg_str (mssp_address a) +:+ "/api/auth/")
                  (arg_str (mssp_username a)) (arg_str (mssp_password a)) s)
        as (rest & Hrest & Hall).
      rewrite Hlogin in Hrest. exists rest. split; [exact Hrest |].
      rewrite forallb_forall in *. intros e He. specialize (Hall e He).
      destruct e; try discriminate; reflexivity.
Qed.

(** X2, run with the replay flag alone, and with a rejected source password. *)
Lemma main_stops_early_example :
  main Demo.env replay_without_file Demo.start
  = (Raise (SystemExit 1),
     {| world := [];
        calls := [Logged "INFO"
                    "Config file path is required when importing from file."] |})
  /\
  main Demo.env wrong_source_password Demo.start
  = (Raise (SystemExit 1),
     {| world := [];
        calls := [ HttpPost "https://mssp.example/api/auth/"
                     "u=admin@local.com&p=wrong";
                   Logged "INFO" "Login failed with status code 401";
                   Logged "INFO" "Failed to log in to MSSP." ] |}).
Proof.
  split.
  - exact (proj1 (main_stops_early Demo.env replay_without_file Demo.start)
             eq_refl eq_refl).
  - exact (proj1 (proj2 (proj2 (main_stops_early Demo.env wrong_source_password
                                   Demo.start))
                    eq_refl eq_refl
                    (snd (source_login Demo.env wrong_source_password Demo.start))
                    eq_refl)).
Defined.

(** X3. Replay mode with a configuration file and full destination
    credentials: once [load_config] has returned the document, and no
    [--export-file] is given, the rest of the run is the construction of the
    client followed by [import_mssp_config] on the loaded document, with the
    overriding password when a non-empty one is given and the default
    otherwise; with [--export-file] the client is constructed and nothing is
    imported. *)
Theorem replay_imports_loaded_document {W : Type} (env : Env W) (a : args)
    (s s1 : state W) (doc : pyval) :
  import_from_file a = true ->
  given (config_file a) = true ->
  destination_credentials a = true ->
  load_config env (arg_str (config_file a)) s = (Ok doc, s1) ->
  main env a s =
  (if given (export_file a)
   then (_ <~ call (VisionNew (controller_of a))
                   (vision_new env (controller_of a)) ;; ret tt) s1
   else import_exported env a doc s1).
Proof.
  unfold destination_credentials. intros Hmode Hfile Hcc Hload.
  unfold main. rewrite Hmode, Hfile, Hcc. simpl negb. cbv iota.
  unfold bindIO at 1. rewrite Hload.
  unfold import_exported, password_of, controller_of.
  destruct (given (export_file a)); simpl negb; cbv iota; [reflexivity |].
  unfold bindIO. destruct (call _ _ s1) as [[[]|e] s2]; [| reflexivity].
  destruct (given (initial_user_password a)); reflexivity.
Qed.

(** X3, run on a stored snapshot with a password override and dry-run. *)
Lemma replay_imports_loaded_document_example :
  main Demo.env replay_args with_snapshot
  = (Ok tt,
     {| world := [("snap.json", PList [globex_entry])];
        calls :=
          [ FileRead "snap.json";
            VisionNew Demo.controller;
            VisionLogin Demo.controller;
            CreateGroup Demo.controller "Globex_oid3" (PList []) true;
            AddUser Demo.controller (PDict [("Username", PStr "carol")])
              "Globex_oid3" "Ch@ngeMe9" true ] |}).
Proof.
  exact (eq_trans
           (replay_imports_loaded_document Demo.env replay_args with_snapshot
              {| world := [("snap.json", PList [globex_entry])];
                 calls := [FileRead "snap.json"] |}
              (PList [globex_entry]) eq_refl eq_refl eq_refl eq_refl)
           eq_refl).
Defined.

(** ** Source login *)

(** X4. [login] sends exactly one request, a POST of the unencoded form
    [u=<username>&p=<password>], and nothing to the destination or the file
    system.  It returns the session cookie only when the answer has status
    200 and a non-empty [sessionid] cookie, and None for any other answer; a
    transport error of class RequestException is swallowed into None, any
    other exception propagates. *)
Theorem login_outcomes {W : Type} (env : Env W) (url username password : string)
    (s : state W) :
  let payload := "u=" +:+ username +:+ "&p=" +:+ password in
  let answer := requests_post env url payload (world s) in
  fst (login env url username password s) =
    match fst answer with
    | Ok r =>
        Ok (if (status_code r =? 200)%Z && given (session_cookie r)
            then session_cookie r else None)
    | Raise (RequestException _) => Ok None
    | Raise e => Raise e
    end /\
  world (snd (login env url username password s)) = snd answer /\
  exists notes,
    calls (snd (login env url username password s))
      = calls s ++ HttpPost url payload :: notes /\
    forallb is_note notes = true.
Proof.
  intros payload answer. unfold answer, login, call, session_cookie. fold payload.
  destruct (requests_post env url payload (world s)) as [[r|e] w']; simpl.
  - destruct (status_code r =? 200)%Z; simpl.
    + unfold bindIO, log_info, emit, ret. simpl.
      destruct (given _); simpl; repeat split; eexists;
        rewrite <- !app_assoc; simpl; split; reflexivity.
    + unfold bindIO, log_info, emit, ret. simpl. repeat split. eexists.
      rewrite <- !app_assoc. simpl. split; reflexivity.
  - destruct e; simpl; repeat split;
      try (exists []; split; reflexivity).
    eexists. unfold bindIO, log_info, emit, ret. simpl.
    rewrite <- !app_assoc. simpl. split; reflexivity.
Qed.

Example login_demo :
  fst (login Demo.env "https://mssp.example/api/auth/" "admin@local.com"
         "password" Demo.start) = Ok (Some "s3cr3t") /\
  fst (login Demo.env "https://mssp.example/api/auth/" "admin@local.com"
         "pass&word" Demo.start) = Ok None.
Proof. split; reflexivity. Qed.

(** ** Listing calls that raise *)

Lemma listing_call_raises {W : Type} (env : Env W) (url cookie : string)
    (s : state W) :
  listing_raises env url cookie
    (response <~ call (HttpGet url cookie) (requests_get env url cookie) ;;
     lift (reply_of response)) s.
Proof.
  intros answer w' Hget s'. unfold bindIO, call, lift. rewrite Hget. fold s'.
  destruct answer as [r|e]; [| reflexivity].
  intros Hst. apply Z.eqb_eq in Hst. unfold reply_of. rewrite Hst.
  destruct (json r) as [[]|e]; simpl; auto.
Qed.

(** X5. The leniency of the listing calls covers the status only: for each
    of the three calls, an exception of [requests.get], a status-200 body
    that is not JSON, and a status-200 JSON value that is not an object are
    raised to the caller, after the request has been logged; and an
    exception of the account listing is the result of
    [build_structured_export], which has no handler. *)
Theorem listing_calls_raise {W : Type} (env : Env W)
    (session_id mssp_address : string) (account_id : pyval) (s : state W) :
  let cookie := "sessionid=" +:+ session_id in
  let query := "?type=account&id=" +:+ fstr env account_id in
  listing_raises env
    ("https://" +:+ mssp_address +:+ "/api/accounts/") cookie
    (fetch_all_accounts env session_id mssp_address) s /\
  listing_raises env
    (("https://" +:+ mssp_address +:+ "/api/assets/") +:+ query) cookie
    (fetch_assets_for_account env session_id account_id mssp_address) s /\
  listing_raises env
    (("https://" +:+ mssp_address +:+ "/api/users/") +:+ query) cookie
    (fetch_users_for_account env session_id account_id mssp_address) s /\
  (forall e s',
     fetch_all_accounts env session_id mssp_address s = (Raise e, s') ->
     build_structured_export env session_id mssp_address s = (Raise e, s')).
Proof.
  intros cookie query. split; [| split; [| split]].
  - exact (listing_call_raises env _ cookie s).
  - exact (listing_call_raises env _ cookie s).
  - exact (listing_call_raises env _ cookie s).
  - intros e s' H. unfold build_structured_export, bindIO. rewrite H. reflexivity.
Qed.

Example export_from_html_portal :
  fst (build_structured_export html_portal "s3cr3t" "mssp.example" Demo.start)
  = Raise JSONDecodeError.
Proof. reflexivity. Qed.

(** ** Filters on arbitrary lists *)

(** X6. On any list, each filter is all or nothing: when every element is
    an object it returns the elements whose field is exactly the wanted
    string; as soon as one element is not an object (a string, a number,
    null, a list) it raises AttributeError and returns no partial result. *)
Theorem filters_raise_on_non_objects (l : list pyval) (wanted : string) :
  filter_accounts_by_type (PList l) wanted =
    (if forallb is_dict l
     then Ok (PList (List.filter (field_is "_type" wanted) l))
     else Raise AttributeError) /\
  filter_users_by_role (PList l) wanted =
    (if forallb is_dict l
     then Ok (PList (List.filter (field_is "role" wanted) l))
     else Raise AttributeError).
Proof.
  assert (H : forall field,
             filterR (fun x => t <- Py.get x field PNone ;; Ok (Py.eq_str t wanted)) l
             = if forallb is_dict l
               then Ok (List.filter (field_is field wanted) l)
               else Raise AttributeError).
  { intros field. induction l as [|x l IH]; [reflexivity |].
    simpl filterR. simpl forallb.
    destruct x as [| | | | | |d]; try reflexivity.
    rewrite get_dict. step. step. rewrite IH. simpl andb.
    destruct (forallb is_dict l); [| reflexivity]. step.
    change (List.filter (field_is field wanted) (PDict d :: l))
      with (if field_is field wanted (PDict d)
            then PDict d :: List.filter (field_is field wanted) l
            else List.filter (field_is field wanted) l).
    replace (field_is field wanted (PDict d))
      with (Py.eq_str (default PNone (Py.dict_lookup d field)) wanted);
      [reflexivity |].
    unfold field_is. destruct (Py.dict_lookup d field) as [[]|]; reflexivity. }
  unfold filter_accounts_by_type, filter_users_by_role. simpl Py.iter.
  split; step; rewrite H; destruct (forallb is_dict l); reflexivity.
Qed.

(** ** Role selection reads the roles as a set *)

(** X7. The result of [select_new_role] on a list depends only on which of
    the four recognised role names occur in it: the order of the list,
    repeated entries, unrecognised role names and entries that are not
    strings change nothing. *)
Theorem select_new_role_set_semantics (l1 l2 : list pyval) :
  (forall r, In r role_priority -> (has_role l1 r <-> has_role l2 r)) ->
  select_new_role (PList l1) = select_new_role (PList l2).
Proof.
  intros H.
  assert (Hb : forall r, In r role_priority -> has_roleb l1 r = has_roleb l2 r).
  { intros r Hr. specialize (H r Hr). rewrite <- !has_roleb_spec in H.
    destruct (has_roleb l1 r), (has_roleb l2 r); try reflexivity;
      destruct H as [H1 H2]; [symmetry; apply H1 | apply H2]; reflexivity. }
  rewrite !select_new_role_cascade.
  rewrite (Hb "userAdmin"), (Hb "basicUser"), (Hb "dashboardUser"),
    (Hb "userViewer"); [reflexivity | | | |]; unfold role_priority; simpl; auto.
Qed.

(** X7, on two lists with the same recognised roles. *)
Lemma select_new_role_set_semantics_example :
  select_new_role
    (PList [PStr "userViewer"; PStr "basicUser"; PStr "operator"; PStr "basicUser"])
  = select_new_role (PList [PInt 7; PStr "basicUser"; PStr "userViewer"]).
Proof.
  apply select_new_role_set_semantics.
  intros r Hr. rewrite <- !has_roleb_spec.
  destruct Hr as [<-|[<-|[<-|[<-|[]]]]]; vm_compute; tauto.
Defined.

(** ** Assets and users, list-wide *)

Lemma for_each_append_map {A : Type} (body : list pyval -> A -> result (list pyval))
    (g : A -> pyval) (l : list A) (acc : list pyval) :
  (forall acc x, In x l -> body acc x = Ok (acc ++ [g x])) ->
  for_each body l acc = Ok (acc ++ map g l).
Proof.
  revert acc. induction l as [|x l IH]; intros acc H; simpl.
  - rewrite app_nil_r. reflexivity.
  - rewrite H by (left; reflexivity). step.
    rewrite IH by (intros; apply H; right; assumption).
    rewrite <- app_assoc. reflexivity.
Qed.

(** X8. On a list of asset records whose policies are lists of strings,
    [build_assets_info] returns one string per asset, in order: the policy
    names joined by a comma and a space, the empty string for an asset with
    no policies or no policies field. *)
Theorem build_assets_info_renders (assets : list pyval) :
  forallb asset_ok assets = true ->
  build_assets_info (PList assets) = Ok (PList (map asset_line assets)) /\
  length (map asset_line assets) = length assets /\
  (forall d, In (PDict d) assets -> policies_of d = [] ->
     In (PStr "") (map asset_line assets)).
Proof.
  intros Hok. split; [| split].
  - unfold build_assets_info. simpl Py.iter. step.
    rewrite (for_each_append_map _ asset_line assets []); [reflexivity |].
    intros acc x Hx. rewrite forallb_forall in Hok. specialize (Hok x Hx).
    destruct x as [| | | | | |d]; try discriminate. simpl in Hok.
    rewrite get_dict. step. unfold asset_line, policies_of.
    destruct (Py.dict_lookup d "policies") as [[| | | | |ps|]|];
      try discriminate; simpl default.
    + simpl in Hok. rewrite (join_strs _ _ Hok). step. reflexivity.
    + reflexivity.
  - apply length_map.
  - intros d Hin Hnone. apply in_map_iff. exists (PDict d).
    split; [| exact Hin]. simpl. rewrite Hnone. reflexivity.
Qed.

(** X8, on one asset with two policies and one with none. *)
Lemma build_assets_info_renders_example :
  build_assets_info
    (PList [ PDict [("policies", PList [PStr "p1"; PStr "p2"])];
             PDict [("name", PStr "bare")] ])
  = Ok (PList [PStr "p1, p2"; PStr ""]).
Proof.
  exact (proj1 (build_assets_info_renders
                  [ PDict [("policies", PList [PStr "p1"; PStr "p2"])];
                    PDict [("name", PStr "bare")] ]
                  eq_refl)).
Defined.

(** X9. On a list of well-typed user records [build_users_info] returns one
    user info per record, in order, each with the same ten keys in the same
    order: Role and Username default to N/A, Notes to the empty string, Name,
    Email and Auth Type to None, and New Role is what [select_new_role]
    returns on the record's current-account roles. *)
Theorem build_users_info_pointwise (users : list pyval) :
  forallb user_ok users = true ->
  build_users_info (PList users) = Ok (PList (map user_info_for users)) /\
  (forall u, In (PDict u) users ->
     select_new_role (PList (current_roles u)) = Ok (new_role_of (current_roles u))).
Proof.
  intros Hok. split.
  - unfold build_users_info. simpl Py.iter. step.
    rewrite (for_each_append_map _ user_info_for users []); [reflexivity |].
    intros acc x Hx. rewrite forallb_forall in Hok. specialize (Hok x Hx).
    destruct x as [| | | | | |u]; try discriminate. simpl in Hok.
    destruct (user_info_of_well_formed u Hok) as (nr & Hnr & ->).
    rewrite select_new_role_cascade in Hnr. injection Hnr as <-.
    step. reflexivity.
  - intros u _. apply select_new_role_cascade.
Qed.

(** X9, on the three users of the demonstration portal. *)
Lemma build_users_info_pointwise_example :
  build_users_info (PList [Demo.carol; Demo.alice; Demo.bob])
  = Ok (PList [ user_info_for Demo.carol; user_info_for Demo.alice;
                user_info_for Demo.bob ]).
Proof.
  exact (proj1 (build_users_info_pointwise [Demo.carol; Demo.alice; Demo.bob]
                  eq_refl)).
Defined.

(** ** Group names: when the cut matters *)

Lemma length_append (a b : string) :
  String.length (a +:+ b) = String.length a + String.length b.
Proof.
  induction a as [|x a IH]; [reflexivity |].
  change (S (String.length (a +:+ b)) = S (String.length a + String.length b)).
  rewrite IH. reflexivity.
Qed.

Lemma substring_0_all (n : nat) (s : string) :
  String.length s <= n -> String.substring 0 n s = s.
Proof.
  revert s. induction n as [|n IH]; intros s H.
  - destruct s; [reflexivity | simpl in H; lia].
  - destruct s as [|c s]; [reflexivity |]. simpl in *. rewrite IH by lia.
    reflexivity.
Qed.

Lemma substring_0_append (n : nat) (a b : string) :
  n <= String.length a ->
  String.substring 0 n (a +:+ b) = String.substring 0 n a.
Proof.
  revert a. induction n as [|n IH]; intros a H.
  - destruct a, b; reflexivity.
  - destruct a as [|c a]; [simpl in H; lia |].
    change (String c (String.substring 0 n (a +:+ b))
            = String c (String.substring 0 n a)).
    rewrite IH by (simpl in H; lia). reflexivity.
Qed.

(** X10. When the account name, the underscore and the OID together have at
    most 31 characters the group name is their concatenation, uncut.  When
    the account name alone has 31 characters or more the group name is the
    first 31 characters of the account name and the OID plays no part, so
    two accounts whose names agree on their first 31 characters get the
    same group name. *)
Theorem group_name_cut_cases (d : list (string * pyval)) (name oid : string) :
  Py.dict_lookup d "Account Name" = Some (PStr name) ->
  Py.dict_lookup d "Account OID" = Some (PStr oid) ->
  (String.length name + 1 + String.length oid <= 31 ->
   cc_group_name_of (PDict d) = Ok (name +:+ "_" +:+ oid)) /\
  (31 <= String.length name ->
   cc_group_name_of (PDict d) = Ok (String.substring 0 31 name) /\
   forall d' oid',
     Py.dict_lookup d' "Account Name" = Some (PStr name) ->
     Py.dict_lookup d' "Account OID" = Some (PStr oid') ->
     cc_group_name_of (PDict d') = cc_group_name_of (PDict d)).
Proof.
  intros Hname Hoid.
  assert (Hcut : forall d0 o,
             Py.dict_lookup d0 "Account Name" = Some (PStr name) ->
             Py.dict_lookup d0 "Account OID" = Some (PStr o) ->
             cc_group_name_of (PDict d0)
             = Ok (String.substring 0 31 (name +:+ "_" +:+ o))).
  { intros d0 o H1 H2. unfold cc_group_name_of, Py.getitem, bindR.
    rewrite H1. simpl. rewrite H2. simpl. unfold Py.slice_to.
    rewrite append_assoc. reflexivity. }
  split.
  - intros Hshort. rewrite (Hcut d oid Hname Hoid), substring_0_all; [reflexivity |].
    rewrite !length_append. simpl. lia.
  - intros Hlong. split.
    + rewrite (Hcut d oid Hname Hoid), substring_0_append by exact Hlong.
      reflexivity.
    + intros d' oid' Hname' Hoid'.
      rewrite (Hcut d oid Hname Hoid), (Hcut d' oid' Hname' Hoid').
      rewrite !substring_0_append by exact Hlong. reflexivity.
Qed.

(** X10, on a short name and on the long name of the specification. *)
Lemma group_name_cut_cases_example :
  cc_group_name_of globex_entry = Ok "Globex_oid3" /\
  cc_group_name_of
    (PDict [ ("Account Name", PStr "VeryLongCustomerNameExceedingLimit");
             ("Account OID", PStr "abc123") ])
  = Ok "VeryLongCustomerNameExceedingLi".
Proof.
  split.
  - exact (proj1 (group_name_cut_cases
                    [ ("Account Name", PStr "Globex");
                      ("Type", PStr "CustomerAccount");
                      ("Account OID", PStr "oid3");
                      ("Assets", PList []);
                      ("Users", PList [PDict [("Username", PStr "carol")]]) ]
                    "Globex" "oid3" eq_refl eq_refl)
             ltac:(simpl; lia)).
  - exact (proj1 (proj2 (group_name_cut_cases
                           [ ("Account Name",
                              PStr "VeryLongCustomerNameExceedingLimit");
                             ("Account OID", PStr "abc123") ]
                           "VeryLongCustomerNameExceedingLimit" "abc123"
                           eq_refl eq_refl)
                    ltac:(simpl; lia))).
Defined.

(** ** What the import passes to the destination client *)

Lemma vision_eqb_refl (v : vision) : vision_eqb v v = true.
Proof. unfold vision_eqb. rewrite !String.eqb_refl. reflexivity. Qed.

Lemma cc_group_name_length (g : pyval) (name : string) :
  cc_group_name_of g = Ok name -> String.length name <= 31.
Proof.
  unfold cc_group_name_of. intros H.
  apply bindR_inv in H as (n & _ & H). apply bindR_inv in H as (l & _ & H).
  apply bindR_inv in H as (o & _ & H). apply bindR_inv in H as (full & _ & H).
  destruct full; try discriminate. injection H as <-.
  unfold Py.slice_to. rewrite substring_0_length. lia.
Qed.

Lemma only_emits_lift_bind {W A B : Type} (P : event -> bool) (r : result A)
    (k : A -> IO W B) :
  (forall a, r = Ok a -> only_emits P (k a)) ->
  only_emits P (bindIO (lift r) k).
Proof.
  intros Hk s. unfold bindIO, lift. destruct r as [a|e].
  - apply Hk. reflexivity.
  - exists []. simpl. rewrite app_nil_r. auto.
Qed.

Lemma import_group_honours {W : Type} (env : Env W) (v : vision)
    (pw : string) (dry : bool) (g : pyval) :
  only_emits (honours v pw dry) (import_group env v pw dry g).
Proof.
  assert (Hb : Bool.eqb dry dry = true) by (destruct dry; reflexivity).
  unfold import_group.
  apply only_emits_lift_bind. intros name Hname.
  apply cc_group_name_length, Nat.leb_le in Hname.
  apply only_emits_bind; [apply only_emits_lift |]. intros poList.
  apply only_emits_bind.
  { apply only_emits_call. simpl. rewrite vision_eqb_refl, Hb, Hname. reflexivity. }
  intros created. apply only_emits_if.
  - apply only_emits_bind; [apply only_emits_lift |]. intros users.
    apply only_emits_bind; [apply only_emits_lift |]. intros items.
    apply only_emits_for_io. intros u. apply only_emits_call. simpl.
    rewrite vision_eqb_refl, String.eqb_refl, Hb, Hname. reflexivity.
  - unfold log_error. emits.
Qed.

(** X11. Every call [import_mssp_config] makes on the destination is made
    on the client it was given, with the dry-run flag it was given; every
    user-creation call carries the password it was given; and every group
    name it passes, to group creation and to user creation alike, has at
    most 31 characters.  Besides these calls it only logs and prints. *)
Theorem import_honours_arguments {W : Type} (env : Env W) (v : vision)
    (config : pyval) (pw : string) (dry : bool) :
  only_emits (honours v pw dry) (import_mssp_config env v config pw dry).
Proof.
  unfold import_mssp_config. apply only_emits_bind.
  { apply only_emits_call. apply vision_eqb_refl. }
  intros logged_in. apply only_emits_if; [| apply only_emits_ret].
  apply only_emits_bind; [apply only_emits_lift |]. intros groups.
  apply only_emits_for_io. intros g. apply import_group_honours.
Qed.

Lemma add_users_all {W : Type} (env : Env W) (v : vision) (name pw : string)
    (dry : bool) (users : list pyval) (s : state W) :
  (forall u w, fst (vision_add_user_to_group env v u name pw dry w) = Ok tt) ->
  fst (add_users env v name pw dry users s) = Ok tt /\
  calls (snd (add_users env v name pw dry users s))
  = calls s ++ map (fun u => AddUser v u name pw dry) users.
Proof.
  intros Hadd. revert s. unfold add_users.
  induction users as [|u users IH]; intros s; simpl.
  - rewrite app_nil_r. auto.
  - unfold bindIO. specialize (Hadd u (world s)).
    change (call (AddUser v u name pw dry)
              (vision_add_user_to_group env v u name pw dry) s)
      with (let (r, w') := vision_add_user_to_group env v u name pw dry (world s) in
            (r, {| world := w'; calls := calls s ++ [AddUser v u name pw dry] |})).
    destruct (vision_add_user_to_group env v u name pw dry (world s))
      as [[[]|e] w1]; [| discriminate].
    destruct (IH {| world := w1;
                    calls := calls s ++ [AddUser v u name pw dry] |})
      as [Hr Hc].
    split; [exact Hr |]. rewrite Hc. simpl. rewrite <- app_assoc. reflexivity.
Qed.

(** X12. When the group of an entry is created and no user-creation call
    raises, the entry is processed to the end: one group-creation call, then
    one user-creation call for each user of the entry, in document order,
    each on the group just created. *)
Theorem import_group_adds_every_user {W : Type} (env : Env W) (v : vision)
    (pw : string) (dry : bool) (g : pyval) (s : state W) (name : string)
    (assets : pyval) (users : list pyval) (w1 : W) :
  cc_group_name_of g = Ok name ->
  Py.getitem g "Assets" = Ok assets ->
  vision_create_cc_group env v name assets dry (world s) = (Ok true, w1) ->
  Py.getitem g "Users" = Ok (PList users) ->
  (forall u w, fst (vision_add_user_to_group env v u name pw dry w) = Ok tt) ->
  fst (import_group env v pw dry g s) = Ok tt /\
  calls (snd (import_group env v pw dry g s))
  = calls s ++ CreateGroup v name assets dry
               :: map (fun u => AddUser v u name pw dry) users.
Proof.
  intros Hname Hassets Hcreate Husers Hadd.
  unfold import_group, bindIO, lift, call.
  rewrite Hname, Hassets, Hcreate, Husers. simpl Py.iter. cbv iota beta.
  destruct (add_users_all env v name pw dry users
              {| world := w1; calls := calls s ++ [CreateGroup v name assets dry] |}
              Hadd) as [Hr Hc].
  split; [exact Hr |]. rewrite Hc. simpl. rewrite <- app_assoc. reflexivity.
Qed.

(** X12, run on an account with two users. *)
Lemma import_group_adds_every_user_example :
  calls (snd (import_group Demo.env Demo.controller "P@ssw0rd1!" false
                initech_entry Demo.start))
  = [ CreateGroup Demo.controller "Initech_oid7" (PList [PStr "edge"]) false;
      AddUser Demo.controller (PDict [("Username", PStr "peter")])
        "Initech_oid7" "P@ssw0rd1!" false;
      AddUser Demo.controller (PDict [("Username", PStr "samir")])
        "Initech_oid7" "P@ssw0rd1!" false ].
Proof.
  exact (proj2 (import_group_adds_every_user Demo.env Demo.controller
                  "P@ssw0rd1!" false initech_entry Demo.start "Initech_oid7"
                  (PList [PStr "edge"])
                  [ PDict [("Username", PStr "peter")];
                    PDict [("Username", PStr "samir")] ]
                  [] eq_refl eq_refl eq_refl eq_refl
                  (fun _ _ => eq_refl))).
Defined.

(** X13. An exception is not isolated the way a refused group is: when the
    processing of an entry raises (a missing key, a value of the wrong
    type, an exception of the client in group or user creation),
    [import_mssp_config] ends with that exception in the state the entry
    left, and the entries after it are not processed. *)
Theorem import_stops_at_first_exception {W : Type} (env : Env W) (v : vision)
    (pw : string) (dry : bool) (before : list pyval) (g : pyval)
    (after : list pyval) (s s1 s2 : state W) (w0 : W) (e : exn) :
  vision_login env v (world s) = (Ok true, w0) ->
  import_groups env v pw dry before
    {| world := w0; calls := calls s ++ [VisionLogin v] |} = (Ok tt, s1) ->
  import_group env v pw dry g s1 = (Raise e, s2) ->
  import_mssp_config env v (PList (before ++ g :: after)) pw dry s = (Raise e, s2).
Proof.
  intros Hlogin Hbefore Hg.
  unfold import_mssp_config. unfold bindIO at 1. unfold call at 1.
  rewrite Hlogin. unfold bindIO at 1. unfold lift at 1. simpl Py.iter.
  unfold import_groups in *. rewrite for_io_app, Hbefore.
  simpl for_io. unfold bindIO at 1. rewrite Hg. reflexivity.
Qed.

(** X13, run on a document whose first entry has no user list: its group
    is created, the lookup of the users raises, and the second entry is
    never reached. *)
Lemma import_stops_at_first_exception_example :
  import_mssp_config Demo.env Demo.controller
    (PList [no_users_entry; initech_entry]) "P@ssw0rd1!" false Demo.start
  = (Raise KeyError,
     {| world := [];
        calls := [ VisionLogin Demo.controller;
                   CreateGroup Demo.controller "Hooli_oid9" (PList []) false ] |}).
Proof.
  exact (import_stops_at_first_exception Demo.env Demo.controller "P@ssw0rd1!"
           false [] no_users_entry [initech_entry] Demo.start
           {| world := []; calls := [VisionLogin Demo.controller] |}
           {| world := [];
              calls := [ VisionLogin Demo.controller;
                         CreateGroup Demo.controller "Hooli_oid9" (PList []) false ] |}
           [] KeyError eq_refl eq_refl eq_refl).
Defined.

Lemma cc_group_name_strings (d : list (string * pyval)) (name oid : string) :
  Py.dict_lookup d "Account Name" = Some (PStr name) ->
  Py.dict_lookup d "Account OID" = Some (PStr oid) ->
  cc_group_name_of (PDict d)
  = Ok (String.substring 0 31 (name +:+ "_" +:+ oid)).
Proof.
  intros H1 H2. unfold cc_group_name_of, Py.getitem, bindR.
  rewrite H1. simpl. rewrite H2. simpl. unfold Py.slice_to.
  rewrite append_assoc. reflexivity.
Qed.

(** X14. Where a malformed entry makes [import_mssp_config] raise.  A
    missing account name or OID, a name or OID that is not a string, and a
    missing asset list raise before any call is made for the entry.  A
    missing user list raises only after the group has been created. *)
Theorem import_group_malformed {W : Type} (env : Env W) (v : vision)
    (pw : string) (dry : bool) (d : list (string * pyval)) (s : state W) :
  (Py.dict_lookup d "Account Name" = None ->
   import_group env v pw dry (PDict d) s = (Raise KeyError, s)) /\
  (forall x, Py.dict_lookup d "Account Name" = Some x -> is_str x = false ->
   import_group env v pw dry (PDict d) s = (Raise TypeError, s)) /\
  (forall name, Py.dict_lookup d "Account Name" = Some (PStr name) ->
   (Py.dict_lookup d "Account OID" = None ->
    import_group env v pw dry (PDict d) s = (Raise KeyError, s)) /\
   (forall x, Py.dict_lookup d "Account OID" = Some x -> is_str x = false ->
    import_group env v pw dry (PDict d) s = (Raise TypeError, s)) /\
   (forall oid, Py.dict_lookup d "Account OID" = Some (PStr oid) ->
    let cut := String.substring 0 31 (name +:+ "_" +:+ oid) in
    (Py.dict_lookup d "Assets" = None ->
     import_group env v pw dry (PDict d) s = (Raise KeyError, s)) /\
    (forall assets w1,
       Py.dict_lookup d "Assets" = Some assets ->
       vision_create_cc_group env v cut assets dry (world s) = (Ok true, w1) ->
       Py.dict_lookup d "Users" = None ->
       import_group env v pw dry (PDict d) s =
       (Raise KeyError,
        {| world := w1; calls := calls s ++ [CreateGroup v cut assets dry] |})))).
Proof.
  split; [| split].
  - intros H. unfold import_group, bindIO, lift, cc_group_name_of, Py.getitem.
    rewrite H. reflexivity.
  - intros x H Hx. unfold import_group, bindIO, lift, cc_group_name_of, Py.getitem.
    rewrite H. destruct x; try discriminate; reflexivity.
  - intros name Hname. split; [| split].
    + intros H. unfold import_group, bindIO, lift, cc_group_name_of, Py.getitem.
      rewrite Hname, H. reflexivity.
    + intros x H Hx.
      unfold import_group, bindIO, lift, cc_group_name_of, Py.getitem.
      rewrite Hname, H. destruct x; try discriminate; reflexivity.
    + intros oid Hoid cut.
      pose proof (cc_group_name_strings d name oid Hname Hoid) as Hcut.
      fold cut in Hcut. split.
      * intros H. unfold import_group, bindIO, lift. rewrite Hcut.
        unfold Py.getitem. rewrite H. reflexivity.
      * intros assets w1 Ha Hc Hu. unfold import_group, bindIO, lift, call.
        rewrite Hcut. unfold Py.getitem. rewrite Ha, Hc, Hu. reflexivity.
Qed.

(** ** The requests of an export *)

Lemma listing_call_logs {W : Type} (env : Env W) (url cookie : string)
    (s s' : state W) (r : result pyval) :
  (response <~ call (HttpGet url cookie) (requests_get env url cookie) ;;
   lift (reply_of response)) s = (r, s') ->
  calls s' = calls s ++ [HttpGet url cookie].
Proof.
  unfold bindIO, call, lift.
  destruct (requests_get env url cookie (world s)) as [[resp|e] w'];
    intros [= _ <-]; reflexivity.
Qed.

Lemma export_account_calls {W : Type} (env : Env W)
    (session_id mssp_address : string) (acc : list pyval) (account : pyval)
    (s s' : state W) (out : list pyval) :
  export_account env session_id mssp_address acc account s = (Ok out, s') ->
  calls s' = calls s ++ requests_for env session_id mssp_address account.
Proof.
  unfold export_account. intros H.
  apply bindIO_ok in H as (id & s0 & Hid & H). apply lift_ok in Hid as [Hid ->].
  apply bindIO_ok in H as (aid & s0 & Haid & H). apply lift_ok in Haid as [Haid ->].
  apply bindIO_ok in H as (name & s0 & Hn & H). apply lift_ok in Hn as [Hn ->].
  apply bindIO_ok in H as (ty & s0 & Hty & H). apply lift_ok in Hty as [Hty ->].
  apply bindIO_ok in H as (assets & s1 & Hassets & H).
  apply bindIO_ok in H as (users_reply & s2 & Husers & H).
  apply bindIO_ok in H as (details & s3 & Hdet & H). apply lift_ok in Hdet as [Hdet ->].
  apply ret_ok in H as [-> ->].
  destruct (get_ok_inv _ _ _ _ Hn) as (d & -> & ->).
  rewrite (account_id_read d id aid Hid Haid) in *.
  apply listing_call_logs in Hassets. apply listing_call_logs in Husers.
  rewrite Husers, Hassets, <- app_assoc. reflexivity.
Qed.

Lemma fold_export_calls {W : Type} (env : Env W)
    (session_id mssp_address : string) (accounts acc out : list pyval)
    (s s' : state W) :
  fold_io (export_account env session_id mssp_address) accounts acc s = (Ok out, s') ->
  calls s' = calls s ++ flat_map (requests_for env session_id mssp_address) accounts.
Proof.
  revert acc s. induction accounts as [|a accounts IH]; intros acc s; simpl.
  - intros H. apply ret_ok in H as [_ ->]. rewrite app_nil_r. reflexivity.
  - intros H. apply bindIO_ok in H as (acc' & s1 & Ha & H).
    apply export_account_calls in Ha. apply IH in H.
    rewrite H, Ha, <- app_assoc. reflexivity.
Qed.

(** X15. The requests of a successful export: one GET of the account
    listing, then for each account that passes the CustomerAccount filter,
    in listing order, one GET of its assets followed by one GET of its
    users, both with the identifier read from the record (N/A when the
    record has none) and every one with the session cookie.  Accounts of
    other types cost no request. *)
Theorem export_requests {W : Type} (env : Env W)
    (session_id mssp_address : string) (s s' : state W) (doc : pyval) :
  build_structured_export env session_id mssp_address s = (Ok doc, s') ->
  exists (listing : pyval) (s0 : state W) (accounts : list pyval),
    fetch_all_accounts env session_id mssp_address s = (Ok listing, s0) /\
    filter_accounts_by_type listing "CustomerAccount" = Ok (PList accounts) /\
    calls s' =
      calls s ++
      HttpGet ("https://" +:+ mssp_address +:+ "/api/accounts/")
              ("sessionid=" +:+ session_id)
      :: flat_map (requests_for env session_id mssp_address) accounts.
Proof.
  unfold build_structured_export. intros H.
  apply bindIO_ok in H as (listing & s0 & Hlisting & H).
  apply bindIO_ok in H as (filtered & s1 & Hf & H). apply lift_ok in Hf as [Hf ->].
  apply bindIO_ok in H as (items & s1 & Hitems & H).
  apply lift_ok in Hitems as [Hitems ->].
  apply bindIO_ok in H as (out & s1 & Hfold & H). apply ret_ok in H as [_ ->].
  assert (filtered = PList items) as ->.
  { unfold filter_accounts_by_type in Hf.
    apply bindR_inv in Hf as (? & _ & Hf).
    apply bindR_inv in Hf as (kept & _ & [= <-]).
    simpl in Hitems. congruence. }
  exists listing, s0, items. split; [exact Hlisting |]. split; [exact Hf |].
  apply fold_export_calls in Hfold. rewrite Hfold.
  apply listing_call_logs in Hlisting. rewrite Hlisting, <- app_assoc.
  reflexivity.
Qed.

(** X15, run against the demonstration portal: seven requests for three
    customer accounts, none for the reseller. *)
Lemma export_requests_example :
  exists (listing : pyval) (s0 : state Demo.files) (accounts : list pyval),
    fetch_all_accounts Demo.env "s3cr3t" "mssp.example" Demo.start
      = (Ok listing, s0) /\
    filter_accounts_by_type listing "CustomerAccount" = Ok (PList accounts) /\
    calls (snd (build_structured_export Demo.env "s3cr3t" "mssp.example"
                  Demo.start)) =
      calls Demo.start ++
      HttpGet ("https://" +:+ "mssp.example" +:+ "/api/accounts/")
              ("sessionid=" +:+ "s3cr3t")
      :: flat_map (requests_for Demo.env "s3cr3t" "mssp.example") accounts.
Proof.
  exact (export_requests Demo.env "s3cr3t" "mssp.example" Demo.start
           (snd (build_structured_export Demo.env "s3cr3t" "mssp.example"
                   Demo.start))
           exported eq_refl).
Defined.

(** ** What an exported document contains *)

Lemma filterR_kept {A : Type} (p : A -> result bool) (l out : list A) :
  filterR p l = Ok out -> forall x, In x out -> p x = Ok true.
Proof.
  revert out. induction l as [|y l IH]; simpl; intros out H x Hx.
  - injection H as <-. destruct Hx.
  - apply bindR_inv in H as (b & Hb & H).
    apply bindR_inv in H as (ys & Hys & [= <-]).
    destruct b; [destruct Hx as [<-|Hx]; [exact Hb |] |]; eapply IH; eauto.
Qed.

Lemma field_test_true (x : pyval) (field wanted : string) :
  (t <- Py.get x field PNone ;; Ok (Py.eq_str t wanted)) = Ok true ->
  exists d, x = PDict d /\ Py.dict_lookup d field = Some (PStr wanted).
Proof.
  intros H. apply bindR_inv in H as (t & Ht & [= He]).
  apply get_ok_inv in Ht as (d & -> & ->). exists d. split; [reflexivity |].
  apply eq_str_true in He.
  destruct (Py.dict_lookup d field); simpl in He; [congruence | discriminate].
Qed.

Lemma for_each_append_forall2 {A : Type} (f : A -> result pyval) (l : list A)
    (acc out : list pyval) :
  for_each (fun acc x => y <- f x ;; Ok (acc ++ [y])) l acc = Ok out ->
  exists ys, out = acc ++ ys /\ Forall2 (fun x y => f x = Ok y) l ys.
Proof.
  revert acc. induction l as [|x l IH]; simpl; intros acc.
  - intros [= <-]. exists []. rewrite app_nil_r. auto.
  - destruct (f x) as [y|e] eqn:Hy; simpl; [| discriminate].
    intros H. apply IH in H as (ys & -> & Hall).
    exists (y :: ys). rewrite <- app_assoc. split; [reflexivity |].
    constructor; assumption.
Qed.

Lemma user_info_of_role (user info : pyval) :
  user_info_of user = Ok info ->
  exists u, user = PDict u /\
    Py.getitem info "Role" = Ok (default (PStr "N/A") (Py.dict_lookup u "role")).
Proof.
  unfold user_info_of. intros H.
  apply bindR_inv in H as (username & Hu & H).
  apply get_ok_inv in Hu as (u & -> & _). exists u. split; [reflexivity |].
  repeat (apply bindR_inv in H as (? & ? & H)).
  injection H as <-.
  match goal with
  | Hr : Py.get (PDict u) "role" _ = Ok ?x |- _ =>
      rewrite get_dict in Hr; injection Hr as <-
  end.
  reflexivity.
Qed.

(** X16. Every document [build_structured_export] returns holds only
    customer accounts and only plain users: the Type of every entry is
    exactly CustomerAccount, and the Role of every user info of every entry
    is exactly user. *)
Theorem export_holds_customers_and_users {W : Type} (env : Env W)
    (session_id mssp_address : string) (s s' : state W) (doc : pyval) :
  build_structured_export env session_id mssp_address s = (Ok doc, s') ->
  exists entries,
    doc = PList entries /\
    Forall (fun entry =>
              Py.getitem entry "Type" = Ok (PStr "CustomerAccount") /\
              exists users,
                Py.getitem entry "Users" = Ok (PList users) /\
                Forall (fun info => Py.getitem info "Role" = Ok (PStr "user")) users)
           entries.
Proof.
  intros H. apply export_entries in H
    as (listing & s0 & accounts & entries & _ & Hf & -> & Hall & _).
  exists entries. split; [reflexivity |].
  assert (Hacc : forall a, In a accounts ->
                   exists d, a = PDict d /\
                     Py.dict_lookup d "_type" = Some (PStr "CustomerAccount")).
  { unfold filter_accounts_by_type in Hf.
    apply bindR_inv in Hf as (items & _ & Hf).
    apply bindR_inv in Hf as (kept & Hkept & [= <-]).
    intros a Ha. apply field_test_true. exact (filterR_kept _ _ _ Hkept a Ha). }
  clear Hf. induction Hall as [|a e accounts entries Hae Hall IH]; constructor.
  - destruct Hae as (d & ar & ur & kept & ca & cu & s1 & s2 & s3 & -> & _ & _
                     & Hk & _ & Hcu & _ & ->).
    destruct (Hacc (PDict d) (or_introl eq_refl)) as (d' & [= <-] & Hty).
    split; [simpl; rewrite Hty; reflexivity |].
    exists cu. split; [reflexivity |].
    assert (Hkept : forall u, In u kept ->
                      exists ud, u = PDict ud /\
                        Py.dict_lookup ud "role" = Some (PStr "user")).
    { unfold filter_users_by_role in Hk.
      apply bindR_inv in Hk as (items & _ & Hk).
      apply bindR_inv in Hk as (kept' & Hkept & [= <-]).
      intros u Hu. apply field_test_true. exact (filterR_kept _ _ _ Hkept u Hu). }
    unfold build_users_info in Hcu. simpl Py.iter in Hcu. rewrite bindR_ok in Hcu.
    apply bindR_inv in Hcu as (infos & Hloop & [= <-]).
    apply for_each_append_forall2 in Hloop as (ys & -> & Hys). simpl.
    clear - Hys Hkept. induction Hys as [|u i kept ys Hui Hys IH]; constructor.
    + apply user_info_of_role in Hui as (ud & -> & ->).
      destruct (Hkept (PDict ud) (or_introl eq_refl)) as (ud' & [= <-] & Hrole).
      rewrite Hrole. reflexivity.
    + apply IH. intros u' Hu'. apply Hkept. right. exact Hu'.
  - apply IH. intros a' Ha'. apply Hacc. right. exact Ha'.
Qed.

(** X16, run against the demonstration portal. *)
Lemma export_holds_customers_and_users_example :
  exists entries,
    exported = PList entries /\
    Forall (fun entry =>
              Py.getitem entry "Type" = Ok (PStr "CustomerAccount") /\
              exists users,
                Py.getitem entry "Users" = Ok (PList users) /\
                Forall (fun info => Py.getitem info "Role" = Ok (PStr "user")) users)
           entries.
Proof.
  exact (export_holds_customers_and_users Demo.env "s3cr3t" "mssp.example"
           Demo.start
           (snd (build_structured_export Demo.env "s3cr3t" "mssp.example"
                   Demo.start))
           exported eq_refl).
Defined.

(** ** Snapshot file names *)







Example snapshot_path_demo :
  snapshot_path Demo.env "export" "2024-02-22_16-46-54"
    = "/opt/migration/config/export_2024-02-22_16-46-54.json" /\
  snapshot_path Demo.env "/tmp/export" "2024-02-22_16-46-54"
    = "/tmp/export_2024-02-22_16-46-54.json".
Proof. split; reflexivity. Qed.

(** ** What a whole run passes to the destination *)

Lemma import_run_ok {W : Type} (env : Env W) (a : args) (config : pyval) :
  only_emits (run_call_ok a)
    (import_mssp_config env (controller_of a) config (password_of a) (dry_run a)).
Proof.
  unfold import_mssp_config. apply only_emits_bind.
  { apply only_emits_call. apply vision_eqb_refl. }
  intros logged_in. apply only_emits_if; [| apply only_emits_ret].
  apply only_emits_bind; [apply only_emits_lift |]. intros groups.
  apply only_emits_for_io. intros g.
  eapply only_emits_weaken; [| apply import_group_honours].
  intros e He. destruct e; try discriminate; try reflexivity; exact He.
Qed.

(** X18. In every run of [__main__], in either mode and whether it ends
    normally or raises: the destination client is built from the three
    destination arguments and every destination call is made on it; every
    group-creation and user-creation call carries the run's [--dry-run]
    flag; every user-creation call carries [--initial-user-password] when a
    non-empty one is given and the default [P@ssw0rd1!] otherwise; every
    group name has at most 31 characters. *)
Theorem run_honours_arguments {W : Type} (env : Env W) (a : args) :
  only_emits (run_call_ok a) (main env a).
Proof.
  unfold main. apply only_emits_bind.
  - unfold log_info.
    repeat first
      [ apply only_emits_ret
      | apply only_emits_raise
      | apply only_emits_emit; reflexivity
      | (eapply only_emits_weaken;
         [| first [ apply login_only_posts | apply export_only_gets
                  | apply save_only_writes | apply load_only_reads ] ];
         (let e := fresh "e" in
          intros e; destruct e; simpl; intros; first [reflexivity | discriminate]))
      | apply only_emits_if
      | apply only_emits_bind; [| intros ?] ].
  - intros config. apply only_emits_if.
    + fold (controller_of a). apply only_emits_bind.
      * apply only_emits_call. apply vision_eqb_refl.
      * intros _. apply only_emits_if; [| apply only_emits_ret].
        pose proof (import_run_ok env a config) as H. unfold password_of in H.
        destruct (given (initial_user_password a)); exact H.
    + apply only_emits_if; [| apply only_emits_ret].
      unfold log_info. apply only_emits_emit. reflexivity.
Qed.

(** ** A refused account listing *)

(** X19. When the account listing is answered with any status but 200,
    [build_structured_export] does not fail: it returns the empty document
    after that single request, so a live run goes on with nothing to
    import. *)
Theorem export_of_refused_listing {W : Type} (env : Env W)
    (session_id mssp_address : string) (s : state W) (r : response) (w' : W) :
  let url := "https://" +:+ mssp_address +:+ "/api/accounts/" in
  let cookie := "sessionid=" +:+ session_id in
  requests_get env url cookie (world s) = (Ok r, w') ->
  status_code r <> 200%Z ->
  build_structured_export env session_id mssp_address s =
  (Ok (PList []), {| world := w'; calls := calls s ++ [HttpGet url cookie] |}).
Proof.
  intros url cookie Hget Hst.
  destruct (listing_call_degrades env url cookie s r w' Hget) as [Hdeg _].
  specialize (Hdeg Hst).
  unfold build_structured_export. unfold bindIO at 1.
  unfold fetch_all_accounts at 1. fold url cookie. rewrite Hdeg. reflexivity.
Qed.

(** X19, run with an expired session. *)
Lemma export_of_refused_listing_example :
  build_structured_export Demo.env "expired" "mssp.example" Demo.start
  = (Ok (PList []),
     {| world := [];
        calls := [HttpGet "https://mssp.example/api/accounts/"
                          "sessionid=expired"] |}).
Proof.
  refine (export_of_refused_listing Demo.env "expired" "mssp.example" Demo.start
            (Demo.refused 401) [] eq_refl _).
  discriminate.
Defined.

(** ** Role collections that are not lists *)

Lemma for_each_raises {A B : Type} (body : B -> A -> result B)
    (before : list A) (x : A) (after : list A) (acc mid : B) (e : exn) :
  for_each body before acc = Ok mid ->
  body mid x = Raise e ->
  for_each body (before ++ x :: after) acc = Raise e.
Proof.
  revert acc. induction before as [|y before IH]; simpl; intros acc.
  - intros [= ->] Hx. rewrite Hx. reflexivity.
  - destruct (body acc y) as [acc'|e']; simpl; [apply IH | discriminate].
Qed.

Lemma user_info_of_not_iterable (u rd : list (string * pyval)) (v : pyval) :
  opt_ok is_dict (Py.dict_lookup u "account") = true ->
  Py.dict_lookup u "roles" = Some (PDict rd) ->
  Py.dict_lookup rd "currentAccount" = Some v ->
  not_iterable v = true ->
  user_info_of (PDict u) = Raise TypeError.
Proof.
  intros Ha Hr Hc Hv. unfold user_info_of. rewrite !get_dict. repeat step.
  assert (exists x, Py.get (default (PDict []) (Py.dict_lookup u "account"))
                      "_oid" (PStr "N/A") = Ok x) as [x ->].
  { destruct (Py.dict_lookup u "account") as [[| | | | | |a]|];
      try discriminate; simpl default; rewrite get_dict; eauto. }
  repeat step. rewrite Hr. simpl default. rewrite get_dict, Hc. simpl default.
  repeat step.
  destruct v as [|[]|n|[]| | |]; try discriminate; try reflexivity;
    simpl Py.truthy; try (destruct (n =? 0)%Z); reflexivity.
Qed.

Lemma build_users_info_returns_list (users : list pyval) :
  forallb user_ok users = true ->
  exists out,
    for_each (fun users_info user =>
                user_info <- user_info_of user ;; Ok (users_info ++ [user_info]))
             users [] = Ok out.
Proof.
  intros Hok. exists ([] ++ map user_info_for users).
  apply for_each_append_map.
  intros acc x Hx. rewrite forallb_forall in Hok. specialize (Hok x Hx).
  destruct x as [| | | | | |u]; try discriminate. simpl in Hok.
  destruct (user_info_of_well_formed u Hok) as (nr & Hnr & ->).
  rewrite select_new_role_cascade in Hnr. injection Hnr as <-.
  step. reflexivity.
Qed.

(** X20. A user record whose current-account roles are null, a boolean or
    a number makes [build_users_info] raise TypeError, although for null,
    false and zero the display string would be the literal None: the roles
    are handed to [select_new_role], which tests membership in them.  One
    such record fails the whole list, whatever the records around it. *)
Theorem build_users_info_roles_not_iterable (before after : list pyval)
    (u rd : list (string * pyval)) (v : pyval) :
  forallb user_ok before = true ->
  opt_ok is_dict (Py.dict_lookup u "account") = true ->
  Py.dict_lookup u "roles" = Some (PDict rd) ->
  Py.dict_lookup rd "currentAccount" = Some v ->
  not_iterable v = true ->
  build_users_info (PList (before ++ PDict u :: after)) = Raise TypeError.
Proof.
  intros Hbefore Ha Hr Hc Hv.
  destruct (build_users_info_returns_list before Hbefore) as [mid Hmid].
  unfold build_users_info. simpl Py.iter. step.
  rewrite (for_each_raises _ before (PDict u) after [] mid TypeError Hmid);
    [reflexivity |].
  rewrite (user_info_of_not_iterable u rd v Ha Hr Hc Hv). reflexivity.
Qed.

(** X20, on a list whose second record has null current-account roles. *)
Lemma build_users_info_roles_not_iterable_example :
  build_users_info
    (PList [ Demo.carol;
             PDict [ ("username", PStr "dave");
                     ("roles", PDict [("currentAccount", PNone)]) ];
             Demo.alice ])
  = Raise TypeError.
Proof.
  exact (build_users_info_roles_not_iterable [Demo.carol] [Demo.alice]
           [ ("username", PStr "dave");
             ("roles", PDict [("currentAccount", PNone)]) ]
           [("currentAccount", PNone)] PNone
           eq_refl eq_refl eq_refl eq_refl eq_refl).
Defined.
